(** * Brain-MR-Segmentation-Playground: training and data utilities

    A shallow embedding of [models/utils.py] and [data/utils.py] and the
    properties of the early-stopping monitors, the schedulers, the dice
    score, the validation loop, the confusion loss and the patch
    extraction.

    Conventions.
    - A Python [float] that is only subtracted, negated and compared (the
      losses seen by the two early-stopping monitors) is a binary64 number:
      Rocq's primitive [float], whose operations are the IEEE 754 ones.
    - A number that goes through [cos], [log] or a tensor reduction is
      idealised as a real number ([R]): rounding is not modelled there.
    - A Python [int] is a [Z].
    - Side effects ([print], [torch.save], [np.save], the summary writer)
      are events appended to a trace; an exception leaves the state mutated
      so far in place, as in Python. *)

From Stdlib Require Import ZArith List String Bool Lia.
From Stdlib Require Import Floats.
From Stdlib Require Import DecimalString.
From Stdlib Require Import Reals Lra.
Import ListNotations.

Open Scope Z_scope.

(** ** Python-level values, exceptions and events *)

(** The exceptions the modelled code can raise. *)
Inductive exn : Type :=
| AssertionError
| ZeroDivisionError
| ValueError
| IndexError
| RuntimeError
| OSError.

(** An argument of [print]: the values are kept, not their formatting. *)
Inductive pyval : Type :=
| PStr (s : string)
| PInt (z : Z)
| PFloat (f : float).

(** [str(z)] for a Python int. *)
Definition str_of_Z (z : Z) : string := NilZero.string_of_int (Z.to_int z).

(** ** A state-and-exception monad

    [Py S A] is a computation over a mutable state [S] that returns an [A]
    or raises; the state reached when the exception is raised is kept. *)

Inductive outcome (A : Type) : Type :=
| Ret (a : A)
| Raise (e : exn).
Arguments Ret {A} a.
Arguments Raise {A} e.

Definition Py (S A : Type) : Type := S -> outcome A * S.

Definition ret {S A} (a : A) : Py S A := fun s => (Ret a, s).
Definition raise {S A} (e : exn) : Py S A := fun s => (Raise e, s).
Definition bind {S A B} (m : Py S A) (k : A -> Py S B) : Py S B :=
  fun s => match m s with
           | (Ret a, s') => k a s'
           | (Raise e, s') => (Raise e, s')
           end.
Definition modify {S} (f : S -> S) : Py S unit := fun s => (Ret tt, f s).

Notation "x <- m ;; k" := (bind m (fun x => k))
  (at level 61, m at next level, right associativity).
Notation "m ;;; k" := (bind m (fun _ => k))
  (at level 61, right associativity).

(** Sequencing of computations that only return or raise. *)
Definition and_then {A B} (o : outcome A) (k : A -> outcome B) : outcome B :=
  match o with
  | Ret a => k a
  | Raise e => Raise e
  end.

Notation "x <~ o ;; k" := (and_then o (fun x => k))
  (at level 61, o at next level, right associativity).

(** A computation that does not touch the state. *)
Definition lift {S A} (o : outcome A) : Py S A := fun s => (o, s).

(** [if c: body] with no [else]. *)
Definition when {S} (c : bool) (body : Py S unit) : Py S unit :=
  if c then body else ret tt.

(** ** Comparison of binary64 numbers

    Python's [a < b], [a > b] and [a == b] on floats are the IEEE
    comparisons: all three are false as soon as one side is NaN. *)

Definition flt (a b : float) : bool := PrimFloat.ltb a b.
Definition fgt (a b : float) : bool := PrimFloat.ltb b a.
Definition fge (a b : float) : bool := PrimFloat.leb b a.
Definition feq (a b : float) : bool := PrimFloat.eqb a b.

(** ** models/utils.py: class EarlyStopping *)

Module EarlyStopping.

(** The attributes set by [__init__]. *)
Record t : Type := mk {
  patience : Z;
  min_delta : float;
  counter : Z;
  best_loss : option float;
  early_stop : bool
}.

(** The object and what it has printed so far, one line per [print]. *)
Definition heap : Type := t * list string.

Definition init (patience : Z) (min_delta : float) : t :=
  mk patience min_delta 0 None false.

Definition set_best_loss (v : float) (self : t) : t :=
  mk (patience self) (min_delta self) (counter self) (Some v) (early_stop self).
Definition incr_counter (self : t) : t :=
  mk (patience self) (min_delta self) (counter self + 1) (best_loss self)
     (early_stop self).
Definition set_early_stop (self : t) : t :=
  mk (patience self) (min_delta self) (counter self) (best_loss self) true.

Definition self_ : Py heap t := fun h => (Ret (fst h), h).
Definition update (f : t -> t) : Py heap unit :=
  modify (fun h => (f (fst h), snd h)).
Definition print (line : string) : Py heap unit :=
  modify (fun h => (fst h, snd h ++ [line])).

(** [EarlyStopping.__call__(self, val_loss)] *)
Definition call (val_loss : float) : Py heap unit :=
  self <- self_ ;;
  match best_loss self with
  | None => update (set_best_loss val_loss)
  | Some best =>
    if fgt (best - val_loss)%float (min_delta self) then
      update (set_best_loss val_loss)
    else if flt (best - val_loss)%float (min_delta self) then
      update incr_counter ;;;
      self <- self_ ;;
      print ("INFO: Early stopping counter " ++ str_of_Z (counter self)
             ++ " of " ++ str_of_Z (patience self)) ;;;
      when (patience self <=? counter self)
        (print "INFO: Early stopping" ;;;
         update set_early_stop)
    else ret tt
  end.

(** Successive calls on the same object; [__call__] never raises. *)
Fixpoint calls (losses : list float) (h : heap) : heap :=
  match losses with
  | [] => h
  | l :: rest => calls rest (snd (call l h))
  end.

(** The object after feeding [losses] to a freshly constructed monitor. *)
Definition run (patience : Z) (min_delta : float) (losses : list float) : t :=
  fst (calls losses (init patience min_delta, [])).

End EarlyStopping.

(** ** models/utils.py: class EarlyStoppingUnlearning *)

Module EarlyStoppingUnlearning.

(** The attributes set by [__init__]; [val_loss_min] is [np.Inf] and is
    never assigned again. *)
Record t : Type := mk {
  patience : Z;
  verbose : bool;
  counter : Z;
  best_score : option float;
  early_stop : bool;
  val_loss_min : float
}.

Definition init (patience : Z) (verbose : bool) : t :=
  mk patience verbose 0 None false infinity.

Definition set_best_score (v : float) (self : t) : t :=
  mk (patience self) (verbose self) (counter self) (Some v) (early_stop self)
     (val_loss_min self).
Definition incr_counter (self : t) : t :=
  mk (patience self) (verbose self) (counter self + 1) (best_score self)
     (early_stop self) (val_loss_min self).
Definition reset_counter (self : t) : t :=
  mk (patience self) (verbose self) 0 (best_score self) (early_stop self)
     (val_loss_min self).
Definition set_early_stop (self : t) : t :=
  mk (patience self) (verbose self) (counter self) (best_score self) true
     (val_loss_min self).

Section WithTorch.

(** A model component, and what [state_dict()] returns for it. *)
Variables Model StateDict : Type.
Variable state_dict : Model -> StateDict.
(** The arguments [optimizer] and [loss], which no method reads. *)
Variables Optimizer Loss : Type.
(** The file system: whether [torch.save] can write to a path. *)
Variable writable : string -> bool.

(** What the monitor does to the outside world, in order. *)
Inductive event : Type :=
| Printed (args : list pyval)
| Saved (path : string) (sd : StateDict)
| SaveFailed (path : string).

Definition heap : Type := t * list event.

Definition self_ : Py heap t := fun h => (Ret (fst h), h).
Definition update (f : t -> t) : Py heap unit :=
  modify (fun h => (f (fst h), snd h)).
Definition emit (e : event) : Py heap unit :=
  modify (fun h => (fst h, snd h ++ [e])).
Definition print (args : list pyval) : Py heap unit := emit (Printed args).

(** [torch.save(obj, path)]: the file is written, or the attempt fails
    with an [OSError]. *)
Definition torch_save (sd : StateDict) (path : string) : Py heap unit :=
  if writable path then emit (Saved path sd)
  else emit (SaveFailed path) ;;; raise OSError.

(** Truth value of a path: the empty string is false. *)
Definition truthy (path : string) : bool :=
  match path with EmptyString => false | String _ _ => true end.

(** [[a, b, c] = xs]: a [ValueError] unless [xs] has three items. *)
Definition unpack3 {A} (xs : list A) : Py heap (A * A * A) :=
  match xs with
  | [a; b; c] => ret (a, b, c)
  | _ => raise ValueError
  end.

(** [save_checkpoint(self, val_loss, models, epoch, optimizer, loss, PTHS)] *)
Definition save_checkpoint (val_loss : float) (models : list Model)
    (epoch : Z) (optimizer : Optimizer) (loss : Loss) (PTHS : list string)
  : Py heap unit :=
  self <- self_ ;;
  when (verbose self)
    (print [PStr "Validation loss decreased: "; PFloat (val_loss_min self);
            PStr " --> "; PFloat val_loss; PStr "Saving model ..."]) ;;;
  ms <- unpack3 models ;;
  let '(encoder, regressor, domain_predictor) := ms in
  ps <- unpack3 PTHS ;;
  let '(PATH_ENCODER, PATH_REGRESSOR, PATH_DOMAIN) := ps in
  when (truthy PATH_ENCODER)
    (torch_save (state_dict encoder) PATH_ENCODER) ;;;
  when (truthy PATH_REGRESSOR)
    (torch_save (state_dict regressor) PATH_REGRESSOR) ;;;
  when (truthy PATH_DOMAIN)
    (torch_save (state_dict domain_predictor) PATH_DOMAIN).

(** [__call__(self, val_loss, model, epoch, optimizer, loss, PTH)] *)
Definition call (val_loss : float) (model : list Model) (epoch : Z)
    (optimizer : Optimizer) (loss : Loss) (PTH : list string)
  : Py heap unit :=
  let score := (- val_loss)%float in
  self <- self_ ;;
  match best_score self with
  | None =>
    update (set_best_score score) ;;;
    save_checkpoint val_loss model epoch optimizer loss PTH
  | Some best =>
    if flt score best then
      update incr_counter ;;;
      self <- self_ ;;
      print [PStr "Early Stopping Counter: "; PInt (counter self);
             PStr "/"; PInt (patience self)] ;;;
      when (patience self <=? counter self) (update set_early_stop)
    else
      update (set_best_score score) ;;;
      save_checkpoint val_loss model epoch optimizer loss PTH ;;;
      update reset_counter
  end.

(** The arguments of one [__call__]. *)
Record args : Type := mk_args {
  a_val_loss : float;
  a_model : list Model;
  a_epoch : Z;
  a_optimizer : Optimizer;
  a_loss : Loss;
  a_PTH : list string
}.

Definition call_with (a : args) : Py heap unit :=
  call (a_val_loss a) (a_model a) (a_epoch a) (a_optimizer a) (a_loss a)
       (a_PTH a).

(** Successive calls on the same object. A call that raises leaves the
    object as it was when the exception left [__call__]; the next call
    (of a caller that caught it) goes on from there. *)
Fixpoint calls (l : list args) (h : heap) : heap :=
  match l with
  | [] => h
  | a :: rest => calls rest (snd (call_with a h))
  end.

Definition run (patience : Z) (verbose : bool) (l : list args) : t :=
  fst (calls l (init patience verbose, [])).

(** The paths [torch.save] was called on, in order. *)
Fixpoint attempts (tr : list event) : list string :=
  match tr with
  | [] => []
  | Printed _ :: tr' => attempts tr'
  | Saved p _ :: tr' => p :: attempts tr'
  | SaveFailed p :: tr' => p :: attempts tr'
  end.

End WithTorch.

Arguments Printed {StateDict} args.
Arguments Saved {StateDict} path sd.
Arguments SaveFailed {StateDict} path.
Arguments attempts {StateDict} tr.
Arguments torch_save {StateDict} writable sd path _.
Arguments unpack3 {StateDict A} xs _.
Arguments mk_args {Model Optimizer Loss}.
Arguments save_checkpoint {Model StateDict} state_dict {Optimizer Loss} writable.
Arguments call {Model StateDict} state_dict {Optimizer Loss} writable.
Arguments call_with {Model StateDict} state_dict {Optimizer Loss} writable.
Arguments calls {Model StateDict} state_dict {Optimizer Loss} writable.
Arguments run {Model StateDict} state_dict {Optimizer Loss} writable.

End EarlyStoppingUnlearning.

(** ** Real-valued tensors

    A tensor is its shape and its elements in row-major order, the layout
    of a contiguous [torch.Tensor] or [np.ndarray]. *)

Record tensor : Type := mk_tensor {
  shape : list nat;
  data : list R
}.

(** [t.reshape(-1)]: the elements as a 1-D tensor. *)
Definition reshape_flat (t : tensor) : list R := data t.

(** [t.sum()] of a 1-D tensor. *)
Definition tsum (l : list R) : R := fold_right Rplus 0%R l.

(** [a * b] for 1-D tensors: element by element when the sizes agree, a
    tensor of one element is broadcast, any other pair of sizes is a
    [RuntimeError]. *)
Definition tmul (a b : list R) : outcome (list R) :=
  if (List.length a =? List.length b)%nat
  then Ret (map (fun p => (fst p * snd p)%R) (combine a b))
  else match a, b with
       | [x], _ => Ret (map (fun y => (x * y)%R) b)
       | _, [y] => Ret (map (fun x => (x * y)%R) a)
       | _, _ => Raise RuntimeError
       end.

(** [torch.ones(shape)]. *)
Definition ones (sh : list nat) : tensor :=
  mk_tensor sh (repeat 1%R (fold_right Nat.mul 1%nat sh)).

(** The number of elements. *)
Definition numel (t : tensor) : nat := List.length (data t).

(** ** models/utils.py: the schedulers *)

(** [a / b] on Python numbers: a [ZeroDivisionError] when [b] is zero. *)
Definition py_div (a b : R) : outcome R :=
  if Req_dec_T b 0 then Raise ZeroDivisionError else Ret (a / b)%R.

(** [cosine_rampdown(current, rampdown_length)] *)
Definition cosine_rampdown (current rampdown_length : R) : outcome R :=
  if Rle_dec 0 current then
    if Rle_dec current rampdown_length then
      phase <~ py_div (PI * current) rampdown_length ;;
      Ret (0.5 * (cos phase + 1))%R
    else Raise AssertionError
  else Raise AssertionError.

(** [cosine_lr(current_epoch, num_epochs, initial_lr)] *)
Definition cosine_lr (current_epoch num_epochs initial_lr : R) : outcome R :=
  w <~ cosine_rampdown current_epoch num_epochs ;;
  Ret (initial_lr * w)%R.

(** ** models/utils.py: dice_score *)

Definition eps : R := 0.0001%R.

(** [dice_score(pred, target)] *)
Definition dice_score (pred target : tensor) : outcome R :=
  let iflat := reshape_flat pred in
  let tflat := reshape_flat target in
  prod <~ tmul iflat tflat ;;
  let intersection := tsum prod in
  let union := (tsum iflat + tsum tflat)%R in
  let dice := ((2 * intersection + eps) / (union + eps))%R in
  Ret (- dice)%R.

(** ** models/utils.py: class confusion_loss *)

(** A 2-D tensor: [x.size()[1]] and the rows. *)
Record matrix : Type := mk_matrix {
  ncols : nat;
  rows : list (list R)
}.

Module confusion_loss.

(** [forward(self, x, target)]; [target] is not read. *)
Definition forward {T : Type} (x : matrix) (target : T) : R :=
  let log := map (map ln) (rows x) in
  let log_sum := map tsum log in
  let normalised_log_sum := map (fun v => (v / INR (ncols x))%R) log_sum in
  let loss := (tsum normalised_log_sum * -1)%R in
  loss.

End confusion_loss.

(** ** models/utils.py: validation *)

Module validation.

Local Open Scope R_scope.

(** A metric value: a Python float, which may be NaN. *)
Inductive pyfloat : Type :=
| NaN
| Fin (r : R).

Definition fadd (a b : pyfloat) : pyfloat :=
  match a, b with
  | Fin x, Fin y => Fin (x + y)
  | _, _ => NaN
  end.

(** [not res or np.isnan(res)] *)
Definition dropped (res : pyfloat) : bool :=
  match res with
  | NaN => true
  | Fin r => if Req_dec_T r 0 then true else false
  end.

(** A batch of the loader: [batch['image']] and [batch['mask']]. *)
Record batch : Type := mk_batch {
  image : tensor;
  mask : tensor
}.

(** A metric function: [__name__] and the function itself. *)
Record metric_fn : Type := mk_metric {
  name : string;
  apply : tensor -> tensor -> outcome pyfloat
}.

(** The tensor operations of torch and numpy that the loop calls; each may
    raise on a tensor of the wrong shape. *)
Class Backend : Type := {
  (** [one_hot(mask.long(), num_classes=c).squeeze(-1).cuda().float()] *)
  one_hot_mask : tensor -> nat -> outcome tensor;
  (** [model_out[:, k, :, :]] *)
  out_channel : tensor -> nat -> outcome tensor;
  (** [mask_data_gpu[:, :, :, k]] *)
  mask_channel : tensor -> nat -> outcome tensor;
  (** [t.cpu().numpy().astype(np.uint8)] *)
  as_uint8 : tensor -> tensor;
  (** the items of [for x in t], along the first axis *)
  items : tensor -> list tensor;
  (** [prediction[k, :, :]] *)
  item_out_channel : tensor -> nat -> outcome tensor;
  (** [mask[:, :, k]] *)
  item_mask_channel : tensor -> nat -> outcome tensor;
  (** [prediction.squeeze(axis=0)] *)
  squeeze0 : tensor -> outcome tensor
}.

(** What the call does to the outside world, in order. *)
Inductive event : Type :=
| NpSave (file : string) (values : list R)
| NpSaveDict (file : string) (d : list (string * R))
| AddScalars (tag : string) (d : list (string * R)) (epoch : Z).

Definition trace : Type := list event.

Definition emit (e : event) : Py trace unit := modify (fun tr => tr ++ [e]).

(** The local variables that live across iterations of the batch loop. *)
Record locals : Type := mk_locals {
  val_loss : R;
  num_samples : Z;
  num_steps : Z;
  result_dict : list (string * list R)
}.

(** [d[key].append(res)] on a [defaultdict(list)], keys in insertion order. *)
Fixpoint dict_append (d : list (string * list R)) (key : string) (res : R)
  : list (string * list R) :=
  match d with
  | [] => [(key, [res])]
  | (k, v) :: d' =>
    if String.eqb k key then (k, v ++ [res]) :: d'
    else (k, v) :: dict_append d' key res
  end.

(** [d[key] = val] on a dict, keys in insertion order. *)
Fixpoint dict_set (d : list (string * R)) (key : string) (val : R)
  : list (string * R) :=
  match d with
  | [] => [(key, val)]
  | (k, v) :: d' =>
    if String.eqb k key then (k, val) :: d'
    else (k, v) :: dict_set d' key val
  end.

(** [np.mean] and [np.std] of a non-empty array. *)
Definition np_mean (l : list R) : R := tsum l / INR (List.length l).
Definition np_std (l : list R) : R :=
  sqrt (tsum (map (fun x => (x - np_mean l) * (x - np_mean l)) l)
        / INR (List.length l)).

Section WithBackend.

Context {B : Backend}.
(** The model's forward pass. *)
Variable model : tensor -> outcome tensor.
Variable metric_fns : list metric_fn.
Variable epoch : Z.
Variable out_channels : nat.
Variable experiment_name : string.
Variable one_hot : bool.

(** [for k in range(out_channels): loss += f(k)], from [loss = 0]. *)
Fixpoint sum_channels (f : nat -> outcome R) (ks : list nat) (loss : R)
  : outcome R :=
  match ks with
  | [] => Ret loss
  | k :: ks' => v <~ f k ;; sum_channels f ks' (loss + v)
  end.

Fixpoint fsum_channels (f : nat -> outcome pyfloat) (ks : list nat)
    (sum : pyfloat) : outcome pyfloat :=
  match ks with
  | [] => Ret sum
  | k :: ks' => v <~ f k ;; fsum_channels f ks' (fadd sum v)
  end.

(** The first half of the loop body, up to [val_loss += dice_loss.item()]:
    [mask_data_gpu], [model_out] and [dice_loss]. *)
Definition forward_pass (b : batch) : outcome (tensor * tensor * R) :=
  let image_data := image b in
  let mask_data := mask b in
  mask_data_gpu <~ (if one_hot then one_hot_mask mask_data out_channels
                    else Ret mask_data) ;;
  let image_data_gpu := image_data in
  model_out <~ model image_data_gpu ;;
  dice_loss <~ (if one_hot then
                  loss <~ sum_channels (fun k =>
                            o <~ out_channel model_out k ;;
                            m <~ mask_channel mask_data_gpu k ;;
                            dice_score o m) (seq 0 out_channels) 0 ;;
                  py_div loss (INR out_channels)
                else dice_score model_out mask_data_gpu) ;;
  Ret (mask_data_gpu, model_out, dice_loss).

(** The value of [res] for one metric function and one sample. *)
Definition metric_of (metric : metric_fn) (prediction mask : tensor)
  : outcome pyfloat :=
  if one_hot then
    sum <~ fsum_channels (fun k =>
             p <~ item_out_channel prediction k ;;
             m <~ item_mask_channel mask k ;;
             apply metric p m) (seq 0 out_channels) (Fin 0) ;;
    match sum with
    | Fin s => q <~ py_div s (INR out_channels) ;; Ret (Fin q)
    | NaN => if (out_channels =? 0)%nat then Raise ZeroDivisionError else Ret NaN
    end
  else
    prediction <~ squeeze0 prediction ;;
    apply metric prediction mask.

(** [for prediction, mask, img in zip(predictions, masks, imgs)] *)
Fixpoint sample_loop (metric : metric_fn) (samples : list (tensor * tensor))
    (d : list (string * list R)) : outcome (list (string * list R)) :=
  match samples with
  | [] => Ret d
  | (prediction, mask) :: rest =>
    res <~ metric_of metric prediction mask ;;
    let dict_key := ("val_" ++ name metric)%string in
    if dropped res then sample_loop metric rest d
    else match res with
         | Fin r => sample_loop metric rest (dict_append d dict_key r)
         | NaN => sample_loop metric rest d
         end
  end.

(** [for metric_fn in metric_fns] *)
Fixpoint metric_loop (metrics : list metric_fn) (samples : list (tensor * tensor))
    (d : list (string * list R)) : outcome (list (string * list R)) :=
  match metrics with
  | [] => Ret d
  | metric :: rest =>
    d' <~ sample_loop metric samples d ;;
    metric_loop rest samples d'
  end.

(** One iteration of [for i, batch in enumerate(loader)]. *)
Definition body (b : batch) (l : locals) : outcome locals :=
  fp <~ forward_pass b ;;
  let '(mask_data_gpu, model_out, dice_loss) := fp in
  let image_data_gpu := image b in
  let val_loss' := val_loss l + dice_loss in
  let masks := items (as_uint8 mask_data_gpu) in
  let imgs := items (as_uint8 image_data_gpu) in
  let predictions := items model_out in
  let zipped := map (fun x => (fst (fst x), snd (fst x)))
                    (combine (combine predictions masks) imgs) in
  d <~ metric_loop metric_fns zipped (result_dict l) ;;
  Ret (mk_locals val_loss' (num_samples l + Z.of_nat (List.length predictions))%Z
                 (num_steps l + 1)%Z d).

Fixpoint loop (loader : list batch) (l : locals) : outcome locals :=
  match loader with
  | [] => Ret l
  | b :: rest => l' <~ body b l ;; loop rest l'
  end.

(** [for key, val in result_dict.items()] *)
Fixpoint summary_loop (items : list (string * list R)) (metrics_dict : list (string * R))
  : Py trace (list (string * R)) :=
  match items with
  | [] => ret metrics_dict
  | (key, val) :: rest =>
    let metric_file := (key ++ "_" ++ experiment_name)%string in
    let values := val in
    emit (NpSave metric_file values) ;;;
    let mean := np_mean values in
    let std := np_std values in
    let metrics_dict := dict_set metrics_dict (key ++ "_mean")%string mean in
    let metrics_dict := dict_set metrics_dict (key ++ "_std")%string std in
    summary_loop rest metrics_dict
  end.

(** [validation(model, loader, writer, metric_fns, epoch, val_samples_dir,
    out_channels, experiment_name, one_hot)]. The batch loop reads and
    writes nothing outside its local variables. *)
Definition validation (loader : list batch) : Py trace R :=
  l <- lift (loop loader (mk_locals 0 0 0 [])) ;;
  val_loss_avg <- lift (py_div (val_loss l) (IZR (num_steps l))) ;;
  metrics_dict <- summary_loop (result_dict l) [] ;;
  emit (NpSaveDict ("metrics_" ++ experiment_name ++ ".npy")%string metrics_dict) ;;;
  emit (AddScalars "losses" [("loss"%string, val_loss_avg)] epoch) ;;;
  emit (AddScalars "metrics" metrics_dict epoch) ;;;
  ret val_loss_avg.

End WithBackend.

End validation.

(** ** data/utils.py: patch_data *)

Module patches.

Local Open Scope nat_scope.

(** A 2-D array as the list of its rows; [shape[:2]] of it. *)
Definition height {E} (a : list (list E)) : nat := List.length a.
Definition width {E} (a : list (list E)) : nat :=
  match a with
  | [] => 0
  | r :: _ => List.length r
  end.

(** The window of [p_h] rows and [p_w] columns whose top-left corner is
    at row [i], column [j]. *)
Definition crop {E} (a : list (list E)) (i j p_h p_w : nat) : list (list E) :=
  map (fun r => firstn p_w (skipn j r)) (firstn p_h (skipn i a)).

(** [dst[start:stop] = src] along the first axis: [src] has as many items
    as the slice, or a single item that is repeated; else [ValueError]. *)
Definition assign_rows {P} (dst : list P) (start stop : nat) (src : list P)
  : outcome (list P) :=
  let lo := Nat.min start (List.length dst) in
  let hi := Nat.max lo (Nat.min stop (List.length dst)) in
  let n := hi - lo in
  if List.length src =? n then Ret (firstn lo dst ++ src ++ skipn hi dst)
  else match src with
       | [x] => Ret (firstn lo dst ++ repeat x n ++ skipn hi dst)
       | _ => Raise ValueError
       end.

Section WithSklearn.

(** The pseudo-random generator of scikit-learn's [extract_patches_2d]:
    [draw seed n_h n_w n k] is the [k]-th of the [n] corners
    [(i_s[k], j_s[k])] that [check_random_state(seed)] yields with
    [randint(n_h, size=n)] followed by [randint(n_w, size=n)]. *)
Variable draw : Z -> nat -> nat -> nat -> nat -> nat * nat.

(** scikit-learn's [_compute_n_patches], for an integer [max_patches]. *)
Definition compute_n_patches (i_h i_w p_h p_w max_patches : nat) : nat :=
  let n_h := i_h - p_h + 1 in
  let n_w := i_w - p_w + 1 in
  let all_patches := n_h * n_w in
  if max_patches =? 0 then all_patches
  else if max_patches <? all_patches then max_patches
  else all_patches.

(** scikit-learn's [check_array(image, allow_nd=True)] on a 2-D array: it
    wants at least one row and one column, and no element that is NaN or
    infinite ([finite] is [np.isfinite] on an element). *)
Definition check_array {E} (finite : E -> bool) (image : list (list E)) : bool :=
  (1 <=? height image) && (1 <=? width image) && forallb (forallb finite) image.

(** scikit-learn's [extract_patches_2d(image, patch_size, max_patches,
    random_state)] on a 2-D image, for the releases that take
    [max_patches] by position (those before 1.0): the patch size is
    checked against the image, the image is validated by [check_array],
    then [max_patches] corners are drawn (every corner in row-major order
    when [max_patches] is 0), and the patches are reshaped with
    [reshape(-1, p_h, p_w, n_colors)], which numpy refuses with a
    [ValueError] when a side of the patch is 0. *)
Definition extract_patches_2d {E} (finite : E -> bool) (image : list (list E))
    (patch_size : nat * nat) (max_patches : nat) (random_state : Z)
  : outcome (list (list (list E))) :=
  let i_h := height image in
  let i_w := width image in
  let '(p_h, p_w) := patch_size in
  if i_h <? p_h then Raise ValueError
  else if i_w <? p_w then Raise ValueError
  else if negb (check_array finite image) then Raise ValueError
  else
    let n_h := i_h - p_h + 1 in
    let n_w := i_w - p_w + 1 in
    let n_patches := compute_n_patches i_h i_w p_h p_w max_patches in
    let corners :=
      if max_patches =? 0
      then flat_map (fun i => map (fun j => (i, j)) (seq 0 n_w)) (seq 0 n_h)
      else map (draw random_state n_h n_w n_patches) (seq 0 n_patches) in
    let patches := map (fun c => crop image (fst c) (snd c) p_h p_w) corners in
    if (p_h =? 0) || (p_w =? 0) then Raise ValueError
    else Ret patches.

(** The element types of the stored images and masks, of the two result
    arrays, and the conversions [astype(np.float32)], [astype(np.uint8)]
    that an assignment into the result arrays performs. *)
Variables Img Msk F32 U8 : Type.
Variable to_float32 : Img -> F32.
Variable to_uint8 : Msk -> U8.
(** [np.isfinite] on a pixel of an image and of a mask (true of every
    integer). *)
Variable img_finite : Img -> bool.
Variable msk_finite : Msk -> bool.
(** What the memory of a fresh [np.ndarray] holds. *)
Variable junk32 : F32.
Variable junk8 : U8.

(** An item of the dataset: [data.get('input')] and [data.get('gt')]. *)
Record sample : Type := mk_sample {
  input : list (list Img);
  gt : list (list Msk)
}.

(** [np.ndarray((n, p_h, p_w))] *)
Definition ndarray {E} (junk : E) (n p_h p_w : nat) : list (list (list E)) :=
  repeat (repeat (repeat junk p_w) p_h) n.

(** The body of [for i in range(data_count)]. *)
Definition body (dataset : list sample) (patch_size : nat * nat)
    (max_patches : nat) (random_value : Z) (i : nat)
    (arrays : list (list (list F32)) * list (list (list U8)))
  : outcome (list (list (list F32)) * list (list (list U8))) :=
  let '(images_patches, masks_patches) := arrays in
  match nth_error dataset i with
  | None => Raise IndexError
  | Some data =>
    let image := input data in
    let mask := gt data in
    image_patches <~ extract_patches_2d img_finite image patch_size max_patches
                       random_value ;;
    mask_patches <~ extract_patches_2d msk_finite mask patch_size max_patches
                      random_value ;;
    images_patches <~ assign_rows images_patches (i * max_patches)
                        (max_patches * (i + 1))
                        (map (map (map to_float32)) image_patches) ;;
    masks_patches <~ assign_rows masks_patches (i * max_patches)
                       (max_patches * (i + 1))
                       (map (map (map to_uint8)) mask_patches) ;;
    Ret (images_patches, masks_patches)
  end.

Fixpoint loop (dataset : list sample) (patch_size : nat * nat)
    (max_patches : nat) (random_value : Z) (range : list nat)
    (arrays : list (list (list F32)) * list (list (list U8)))
  : outcome (list (list (list F32)) * list (list (list U8))) :=
  match range with
  | [] => Ret arrays
  | i :: rest =>
    arrays' <~ body dataset patch_size max_patches random_value i arrays ;;
    loop dataset patch_size max_patches random_value rest arrays'
  end.

(** [patch_data(dataset, patch_size, max_patches)]; [random_value] is the
    number that [np.random.randint(100)] returns. *)
Definition patch_data (dataset : list sample) (patch_size : nat * nat)
    (max_patches : nat) (random_value : Z)
  : outcome (list (list (list F32)) * list (list (list U8))) :=
  let data_count := List.length dataset in
  let total_patches_count := data_count * max_patches in
  let images_patches :=
    ndarray junk32 total_patches_count (fst patch_size) (snd patch_size) in
  let masks_patches :=
    ndarray junk8 total_patches_count (fst patch_size) (snd patch_size) in
  loop dataset patch_size max_patches random_value (seq 0 data_count)
       (images_patches, masks_patches).

End WithSklearn.

Arguments mk_sample {Img Msk} input gt.
Arguments input {Img Msk} s.
Arguments gt {Img Msk} s.
Arguments body draw {Img Msk F32 U8} to_float32 to_uint8 img_finite msk_finite.
Arguments loop draw {Img Msk F32 U8} to_float32 to_uint8 img_finite msk_finite.
Arguments patch_data draw {Img Msk F32 U8} to_float32 to_uint8 img_finite msk_finite
  junk32 junk8.

End patches.

(** ** models/utils.py: the other schedulers *)

(** [np.clip(a, a_min, a_max)], which is
    [np.minimum(a_max, np.maximum(a, a_min))]. *)
Definition np_clip (a a_min a_max : R) : R := Rmin a_max (Rmax a a_min).

(** [sigmoid_rampup(current, rampup_length)] *)
Definition sigmoid_rampup (current rampup_length : R) : R :=
  if Req_dec_T rampup_length 0 then 1%R
  else
    let current := np_clip current 0 rampup_length in
    let phase := (1 - current / rampup_length)%R in
    exp (-5 * phase * phase).

(** [scheduler(epoch, lr)]; [epoch % 5] of a Python int has the sign of 5. *)
Definition scheduler (epoch : Z) (lr : R) : R :=
  if (epoch mod 5 =? 0) && negb (epoch =? 0) then (lr / 2)%R else lr.

(** [get_current_consistency_weight(weight, epoch, rampup)] *)
Definition get_current_consistency_weight (weight epoch rampup : R) : R :=
  (weight * sigmoid_rampup epoch rampup)%R.

(** ** data/utils.py: the file ids of get_dataset *)

Module get_dataset.

Import Ascii.

(** [file_name.startswith('.')] *)
Definition startswith_dot (file_name : string) : bool :=
  match file_name with
  | String c _ => Ascii.eqb c "."%char
  | EmptyString => false
  end.

(** [file_name.split('.')[0]]: the characters before the first dot. *)
Fixpoint before_dot (file_name : string) : string :=
  match file_name with
  | EmptyString => EmptyString
  | String c rest =>
    if Ascii.eqb c "."%char then EmptyString else String c (before_dot rest)
  end.

(** [[file_name.split('.')[0] for file_name in listdir(img_root_dir)
    if not file_name.startswith('.')]], [listing] being what [listdir]
    returned. *)
Definition file_ids (listing : list string) : list string :=
  map before_dot (filter (fun file_name => negb (startswith_dot file_name)) listing).

End get_dataset.

(** ** Definitions used by the statements below *)

Module ESU := EarlyStoppingUnlearning.

(** The six flat losses [[1.0, 1.0, 1.0, 1.0, 1.0, 1.0]]. *)
Definition flat_losses : list float := repeat 1%float 6.

Section SaveInOrder.

Context {StateDict : Type}.
Variable writable : string -> bool.

(** Saving the listed components one after the other and giving up at the
    first path that cannot be written: the events, and whether every
    component was written. *)
Fixpoint save_in_order (todo : list (StateDict * string))
  : list (ESU.event StateDict) * bool :=
  match todo with
  | [] => ([], true)
  | (sd, p) :: rest =>
    if writable p then
      let (evs, ok) := save_in_order rest in (ESU.Saved p sd :: evs, ok)
    else ([ESU.SaveFailed p], false)
  end.

End SaveInOrder.

(** What [save_checkpoint] prints first when the monitor is verbose. *)
Definition verbose_line {StateDict : Type} (self : ESU.t) (val_loss : float)
  : list (ESU.event StateDict) :=
  if ESU.verbose self
  then [ESU.Printed [PStr "Validation loss decreased: "; PFloat (ESU.val_loss_min self);
                     PStr " --> "; PFloat val_loss; PStr "Saving model ..."]]
  else [].

(** The checkpointing monitor after an update with a worse score: the
    counter is one more, and the flag is set once it reaches [patience]. *)
Definition worse_update (self : ESU.t) : ESU.t :=
  ESU.mk (ESU.patience self) (ESU.verbose self) (ESU.counter self + 1)
    (ESU.best_score self)
    (if ESU.patience self <=? ESU.counter self + 1 then true else ESU.early_stop self)
    (ESU.val_loss_min self).

(** The inputs [[0.5, 0.5]] and [[0.99, 0.01]] of the confusion loss. *)
Definition uniform_input : matrix := mk_matrix 2 [[0.5; 0.5]]%R.
Definition confident_input : matrix := mk_matrix 2 [[0.99; 0.01]]%R.

(** [pred * target] element by element, for two tensors of one size. *)
Definition products (a b : list R) : list R :=
  map (fun p => (fst p * snd p)%R) (combine a b).

(** Every row of a 2-D array has the array's width. *)
Definition rectangular {E} (a : list (list E)) : Prop :=
  Forall (fun r => List.length r = patches.width a) a.

(** No element of a 2-D array is NaN or infinite. *)
Definition all_finite {E} (finite : E -> bool) (a : list (list E)) : Prop :=
  Forall (Forall (fun x => finite x = true)) a.

(** The number of corners at which a patch fits into a 2-D array. *)
Definition positions {E} (a : list (list E)) (p_h p_w : nat) : nat :=
  ((patches.height a - p_h + 1) * (patches.width a - p_w + 1))%nat.

(** A sample from which [max_patches] patches of the given size can be
    drawn: image and mask are rectangular, of one shape and without NaN or
    infinite pixels, the patch has at least one row and one column and is
    no larger than them, and [max_patches] is at least 1 and at most the
    number of corners, or there is a single corner (the patch has the
    size of the image). *)
Record fits {Img Msk} (img_finite : Img -> bool) (msk_finite : Msk -> bool)
    (p_h p_w max_patches : nat) (s : patches.sample Img Msk) : Prop := mk_fits {
  fits_input : rectangular (patches.input s);
  fits_gt : rectangular (patches.gt s);
  fits_input_finite : all_finite img_finite (patches.input s);
  fits_gt_finite : all_finite msk_finite (patches.gt s);
  fits_same_height : patches.height (patches.gt s) = patches.height (patches.input s);
  fits_same_width : patches.width (patches.gt s) = patches.width (patches.input s);
  fits_rows : (1 <= p_h)%nat;
  fits_columns : (1 <= p_w)%nat;
  fits_height : (p_h <= patches.height (patches.input s))%nat;
  fits_width : (p_w <= patches.width (patches.input s))%nat;
  fits_count : (1 <= max_patches <= positions (patches.input s) p_h p_w)%nat
               \/ positions (patches.input s) p_h p_w = 1%nat
}.

(** The corner of the [k]-th of the [max_patches] rows written for a 2-D
    array: the [k]-th of [max_patches] corners drawn, or, when there are
    fewer corners than that, the first of as many corners as there are
    (scikit-learn then draws no more, and with a single one the patch is
    copied to every row). *)
Definition corner (draw : Z -> nat -> nat -> nat -> nat -> nat * nat) (seed : Z)
    {E} (a : list (list E)) (p_h p_w max_patches k : nat) : nat * nat :=
  let n_h := (patches.height a - p_h + 1)%nat in
  let n_w := (patches.width a - p_w + 1)%nat in
  if (max_patches <=? n_h * n_w)%nat then draw seed n_h n_w max_patches k
  else draw seed n_h n_w (n_h * n_w)%nat 0%nat.

(** The generator draws row indices below [n_h] and column indices below
    [n_w], as [randint(n_h)] and [randint(n_w)] do. *)
Definition in_range (draw : Z -> nat -> nat -> nat -> nat -> nat * nat) : Prop :=
  forall seed n_h n_w n k,
    (0 < n_h)%nat -> (0 < n_w)%nat -> (k < n)%nat ->
    (fst (draw seed n_h n_w n k) < n_h)%nat /\ (snd (draw seed n_h n_w n k) < n_w)%nat.

(** A patch of [p_h] rows and [p_w] columns. *)
Definition patch_shape {E} (p_h p_w : nat) (p : list (list E)) : Prop :=
  List.length p = p_h /\ Forall (fun r => List.length r = p_w) p.

(** A generator that always draws the top-left corner. *)
Definition draw_origin (seed : Z) (n_h n_w n k : nat) : nat * nat := (0%nat, 0%nat).

(** A backend for tensors that hold one sample with one channel: every
    slice and conversion is the tensor itself. *)
Definition single_sample_backend : validation.Backend := {|
  validation.one_hot_mask := fun t _ => Ret t;
  validation.out_channel := fun t _ => Ret t;
  validation.mask_channel := fun t _ => Ret t;
  validation.as_uint8 := fun t => t;
  validation.items := fun t => [t];
  validation.item_out_channel := fun t _ => Ret t;
  validation.item_mask_channel := fun t _ => Ret t;
  validation.squeeze0 := fun t => Ret t
|}.

(** The same backend with torch's [one_hot], which raises a
    [RuntimeError] when asked for zero classes. *)
Definition no_zero_class_backend : validation.Backend := {|
  validation.one_hot_mask :=
    fun t c => if (c =? 0)%nat then Raise RuntimeError else Ret t;
  validation.out_channel := fun t _ => Ret t;
  validation.mask_channel := fun t _ => Ret t;
  validation.as_uint8 := fun t => t;
  validation.items := fun t => [t];
  validation.item_out_channel := fun t _ => Ret t;
  validation.item_mask_channel := fun t _ => Ret t;
  validation.squeeze0 := fun t => Ret t
|}.

(** The rate after [n] epochs when [scheduler] is called once per epoch,
    epoch 0 first, each time on the rate it returned for the epoch before
    (the way a learning-rate callback calls it). *)
Definition scheduled_lr (n : nat) (lr : R) : R :=
  fold_left (fun lr epoch => scheduler (Z.of_nat epoch) lr) (seq 0 n) lr.

Module ES := EarlyStopping.

(** What a call keeps true: the counter is not negative and the flag is
    set exactly when the counter is positive and has reached [patience]. *)
Definition stop_reflects_counter (self : ES.t) : Prop :=
  0 <= ES.counter self
  /\ ES.early_stop self
     = (ES.patience self <=? ES.counter self) && (1 <=? ES.counter self).

(** Every element lies between 0 and 1. *)
Definition unit_valued (l : list R) : Prop := Forall (fun x => (0 <= x <= 1)%R) l.

(** [torch.zeros(shape)]. *)
Definition zeros (sh : list nat) : tensor :=
  mk_tensor sh (repeat 0%R (fold_right Nat.mul 1%nat sh)).

(** One sample whose [n] class probabilities are all [1/n]. *)
Definition uniform_row (n : nat) : matrix :=
  mk_matrix n [repeat (/ INR n)%R n].

(** One sample with the two class probabilities [p] and [1 - p]. *)
Definition two_class_row (p : R) : matrix := mk_matrix 2 [[p; (1 - p)%R]].

(** The [np.save] of one metric's values, as [validation] issues it. *)
Definition metric_save (experiment_name : string) (kv : string * list R)
  : validation.event :=
  validation.NpSave (fst kv ++ "_" ++ experiment_name)%string (snd kv).

(** An entry of [result_dict] as the loop builds it: the key is
    ["val_" + name] for one of the metric functions, and the values are at
    least one and none of them is zero. *)
Definition kept_entry (metric_fns : list validation.metric_fn)
    (kv : string * list R) : Prop :=
  (exists metric, In metric metric_fns
                  /\ fst kv = ("val_" ++ validation.name metric)%string)
  /\ snd kv <> []
  /\ Forall (fun r => r <> 0%R) (snd kv).

(** A [result_dict] of such entries, no key twice. *)
Definition kept_dict (metric_fns : list validation.metric_fn)
    (d : list (string * list R)) : Prop :=
  Forall (kept_entry metric_fns) d /\ NoDup (map fst d).

(** A metric that is 1 on every sample. *)
Definition constant_metric : validation.metric_fn :=
  validation.mk_metric "one" (fun _ _ => Ret (validation.Fin 1%R)).

(** What [patch_data] needs of an array: the patch is no larger than the
    array, and [max_patches] lies between 1 and the number of corners,
    unless there is a single corner. *)
Definition extractable {E} (a : list (list E)) (p_h p_w max_patches : nat) : Prop :=
  (p_h <= patches.height a)%nat /\ (p_w <= patches.width a)%nat
  /\ (positions a p_h p_w = 1%nat
      \/ (1 <= max_patches <= positions a p_h p_w)%nat).

(** The characters of a string. *)
Fixpoint chars (s : string) : list Ascii.ascii :=
  match s with
  | EmptyString => []
  | String c rest => c :: chars rest
  end.

(** A file system on which only [enc.pth] cannot be written. *)
Definition encoder_path_unwritable (path : string) : bool :=
  negb (String.eqb path "enc.pth").

(** * Properties *)

(** ** Comparison of binary64 numbers *)

Lemma SFcompare_swap (x y : spec_float) :
  SFcompare y x = option_map CompOpp (SFcompare x y).
Proof.
  destruct x as [sx|sx| |sx mx ex], y as [sy|sy| |sy my ey]; simpl; try reflexivity;
    try (destruct sx; reflexivity); try (destruct sy; reflexivity);
    try (destruct sx, sy; reflexivity).
  pose proof (Pos.compare_cont_antisym mx my Eq) as Hm.
  destruct sx, sy; simpl; try reflexivity;
    rewrite (Z.compare_antisym ex ey); destruct (ex ?= ey)%Z; simpl; try reflexivity;
    do 2 f_equal; symmetry; exact Hm.
Qed.

(** Two numbers that compare equal are not ordered either way. *)
Lemma feq_not_ordered (a b : float) :
  feq a b = true -> flt a b = false /\ fgt a b = false.
Proof.
  unfold feq, flt, fgt. rewrite eqb_spec, !ltb_spec. unfold SFeqb, SFltb.
  rewrite (SFcompare_swap (Prim2SF a) (Prim2SF b)).
  destruct (SFcompare (Prim2SF a) (Prim2SF b)) as [[]|]; simpl; intuition congruence.
Qed.

(** [a >= b] excludes [a < b]. *)
Lemma fge_not_flt (a b : float) : fge a b = true -> flt a b = false.
Proof.
  unfold fge, flt. rewrite leb_spec, ltb_spec. unfold SFleb, SFltb.
  rewrite (SFcompare_swap (Prim2SF a) (Prim2SF b)).
  destruct (SFcompare (Prim2SF a) (Prim2SF b)) as [[]|]; simpl; intuition congruence.
Qed.

(** ** The simple early-stopping monitor *)

(** C1 (the code departs from the claim). With [patience=3] and
    [min_delta=0], the flat losses [1.0] fed six times never set
    [early_stop]: after each of the six calls the counter is still 0, the
    flag is still false and nothing has been printed, because
    [best_loss - val_loss] is neither above nor below [min_delta]. *)
Theorem flat_losses_never_stop :
  map (fun n =>
         let h := EarlyStopping.calls (firstn n flat_losses)
                    (EarlyStopping.init 3 0%float, []) in
         (EarlyStopping.counter (fst h), EarlyStopping.early_stop (fst h), snd h))
      [1; 2; 3; 4; 5; 6]%nat
  = repeat (0, false, []) 6.
Proof. vm_compute. reflexivity. Qed.

(** C5. When [best_loss] is set and [best_loss - val_loss] equals
    [min_delta], a call changes nothing: [best_loss], [counter] and
    [early_stop] (and the other attributes) are as before, nothing is
    printed and the call returns. *)
Theorem exact_min_delta_call_is_noop
    (self : EarlyStopping.t) (out : list string) (best val_loss : float) :
  EarlyStopping.best_loss self = Some best ->
  feq (best - val_loss)%float (EarlyStopping.min_delta self) = true ->
  EarlyStopping.call val_loss (self, out) = (Ret tt, (self, out)).
Proof.
  intros Hbest Heq.
  destruct (feq_not_ordered _ _ Heq) as [Hlt Hgt].
  unfold EarlyStopping.call, bind, EarlyStopping.self_. simpl.
  rewrite Hbest, Hgt, Hlt. reflexivity.
Qed.

(** The monitor with best loss 1.0 and [min_delta=0], called on 1.0. *)
Lemma exact_min_delta_call_is_noop_witness :
  EarlyStopping.call 1%float (EarlyStopping.mk 3 0%float 0 (Some 1%float) false, [])
  = (Ret tt, (EarlyStopping.mk 3 0%float 0 (Some 1%float) false, [])).
Proof.
  apply (exact_min_delta_call_is_noop
           (EarlyStopping.mk 3 0%float 0 (Some 1%float) false) [] 1%float 1%float);
    reflexivity.
Defined.

(** A call never clears [early_stop]. *)
Lemma EarlyStopping_call_keeps_stop (val_loss : float) (h : EarlyStopping.heap) :
  EarlyStopping.early_stop (fst h) = true ->
  EarlyStopping.early_stop (fst (snd (EarlyStopping.call val_loss h))) = true.
Proof.
  intros H. destruct h as [self out]. simpl in H.
  unfold EarlyStopping.call, bind, EarlyStopping.self_. simpl.
  destruct (EarlyStopping.best_loss self) as [best|]; simpl; [|exact H].
  destruct (fgt _ _); simpl; [exact H|].
  destruct (flt _ _); simpl; [|exact H].
  destruct (_ <=? _); simpl; [reflexivity|exact H].
Qed.

Lemma EarlyStopping_calls_app (xs ys : list float) (h : EarlyStopping.heap) :
  EarlyStopping.calls (xs ++ ys) h = EarlyStopping.calls ys (EarlyStopping.calls xs h).
Proof. revert h. induction xs as [|x xs IH]; intros h; simpl; [reflexivity|apply IH]. Qed.

Lemma EarlyStopping_calls_keep_stop (ys : list float) (h : EarlyStopping.heap) :
  EarlyStopping.early_stop (fst h) = true ->
  EarlyStopping.early_stop (fst (EarlyStopping.calls ys h)) = true.
Proof.
  revert h. induction ys as [|y ys IH]; intros h H; simpl; [exact H|].
  apply IH, EarlyStopping_call_keeps_stop, H.
Qed.

(** ** The checkpointing early-stopping monitor *)

Section Unlearning.

Context {Model StateDict Optimizer Loss : Type}.
Variable state_dict : Model -> StateDict.
Variable writable : string -> bool.

Ltac run_py :=
  unfold ESU.save_checkpoint, ESU.call, ESU.torch_save, ESU.unpack3, ESU.print,
    ESU.emit, ESU.update, ESU.self_, when, bind, ret, raise, modify; simpl.

(** [save_checkpoint] only appends to the trace: the object is untouched. *)
Lemma save_checkpoint_keeps_object val_loss (models : list Model) epoch
    (optimizer : Optimizer) (loss : Loss) PTHS (h : ESU.heap StateDict) :
  fst (snd (ESU.save_checkpoint state_dict writable val_loss models epoch
              optimizer loss PTHS h)) = fst h.
Proof.
  destruct h as [self tr]. run_py.
  destruct (ESU.verbose self); simpl;
  destruct models as [|m1 [|m2 [|m3 [|m4 ms]]]]; simpl; try reflexivity;
  destruct PTHS as [|p1 [|p2 [|p3 [|p4 ps]]]]; simpl; try reflexivity;
  destruct (ESU.truthy p1); simpl; try destruct (writable p1); simpl; try reflexivity;
  destruct (ESU.truthy p2); simpl; try destruct (writable p2); simpl; try reflexivity;
  destruct (ESU.truthy p3); simpl; try destruct (writable p3); simpl; reflexivity.
Qed.

(** C3 (as amended). A checkpoint saves the components that have a
    non-empty path in the order encoder, regressor, domain predictor, and
    gives up at the first save that fails: that failure is raised out of
    [save_checkpoint] as an [OSError], the components before it have been
    written and no save is attempted for the components after it. When no
    save fails, all of them are written and the call returns. *)
Theorem save_checkpoint_stops_at_first_failure
    (self : ESU.t) (tr : list (ESU.event StateDict)) (val_loss : float) (epoch : Z)
    (optimizer : Optimizer) (loss : Loss)
    (encoder regressor domain_predictor : Model)
    (PATH_ENCODER PATH_REGRESSOR PATH_DOMAIN : string) :
  let todo :=
    filter (fun c => ESU.truthy (snd c))
      [(state_dict encoder, PATH_ENCODER); (state_dict regressor, PATH_REGRESSOR);
       (state_dict domain_predictor, PATH_DOMAIN)] in
  ESU.save_checkpoint state_dict writable val_loss
    [encoder; regressor; domain_predictor] epoch optimizer loss
    [PATH_ENCODER; PATH_REGRESSOR; PATH_DOMAIN] (self, tr)
  = ((if snd (save_in_order writable todo) then Ret tt else Raise OSError),
     (self, tr ++ verbose_line self val_loss ++ fst (save_in_order writable todo))).
Proof.
  intros todo. subst todo. run_py. unfold verbose_line.
  destruct (ESU.verbose self); simpl;
  destruct (ESU.truthy PATH_ENCODER); simpl; try destruct (writable PATH_ENCODER); simpl;
  destruct (ESU.truthy PATH_REGRESSOR); simpl; try destruct (writable PATH_REGRESSOR); simpl;
  destruct (ESU.truthy PATH_DOMAIN); simpl; try destruct (writable PATH_DOMAIN); simpl;
  rewrite <- ?app_assoc, ?app_nil_r; reflexivity.
Qed.

(** C8 (as amended). Once [best_score] is set, an update with
    [score < best_score] adds one to the counter, sets [early_stop] when
    the new counter has reached [patience], prints the counter and saves
    nothing. An update with [score >= best_score] stores [score] as
    [best_score] and runs [save_checkpoint]; the counter is reset to 0
    only when that returns, and an exception of the checkpoint leaves the
    call with the counter as it was. With a bundle of three components,
    the checkpoint saves those with a path, in order: when every save
    succeeds the call returns with the counter at 0, and when one fails
    the call raises its [OSError] after the earlier saves, with the new
    [best_score] and the old counter. *)
Theorem unlearning_update_after_first
    (self : ESU.t) (tr : list (ESU.event StateDict)) (best val_loss : float)
    (model : list Model) (epoch : Z) (optimizer : Optimizer) (loss : Loss)
    (PTH : list string) :
  ESU.best_score self = Some best ->
  let score := (- val_loss)%float in
  (flt score best = true ->
   ESU.call state_dict writable val_loss model epoch optimizer loss PTH (self, tr)
   = (Ret tt,
      (worse_update self,
       tr ++ [ESU.Printed [PStr "Early Stopping Counter: ";
                           PInt (ESU.counter self + 1);
                           PStr "/"; PInt (ESU.patience self)]])))
  /\
  (fge score best = true ->
   let checkpoint :=
     ESU.save_checkpoint state_dict writable val_loss model epoch optimizer loss PTH
       (ESU.set_best_score score self, tr) in
   ESU.call state_dict writable val_loss model epoch optimizer loss PTH (self, tr)
   = match fst checkpoint with
     | Ret _ => (Ret tt, (ESU.reset_counter (ESU.set_best_score score self),
                          snd (snd checkpoint)))
     | Raise e => (Raise e, (ESU.set_best_score score self, snd (snd checkpoint)))
     end)
  /\
  (fge score best = true ->
   forall (encoder regressor domain_predictor : Model)
          (PATH_ENCODER PATH_REGRESSOR PATH_DOMAIN : string),
     model = [encoder; regressor; domain_predictor] ->
     PTH = [PATH_ENCODER; PATH_REGRESSOR; PATH_DOMAIN] ->
     let todo :=
       filter (fun c => ESU.truthy (snd c))
         [(state_dict encoder, PATH_ENCODER); (state_dict regressor, PATH_REGRESSOR);
          (state_dict domain_predictor, PATH_DOMAIN)] in
     let saved := tr ++ verbose_line self val_loss ++ fst (save_in_order writable todo) in
     ESU.call state_dict writable val_loss model epoch optimizer loss PTH (self, tr)
     = if snd (save_in_order writable todo)
       then (Ret tt, (ESU.reset_counter (ESU.set_best_score score self), saved))
       else (Raise OSError, (ESU.set_best_score score self, saved))).
Proof.
  intros Hbest score. split; [|split].
  - intros Hlt. unfold ESU.call. fold score.
    unfold bind at 1. unfold ESU.self_ at 1. simpl. rewrite Hbest, Hlt.
    run_py. unfold worse_update.
    destruct (ESU.patience self <=? ESU.counter self + 1); reflexivity.
  - intros Hge checkpoint. apply fge_not_flt in Hge.
    pose proof (save_checkpoint_keeps_object val_loss model epoch optimizer loss PTH
                  (ESU.set_best_score score self, tr)) as Hobj.
    fold checkpoint in Hobj. simpl in Hobj.
    unfold ESU.call. fold score.
    unfold bind at 1. unfold ESU.self_ at 1. simpl. rewrite Hbest, Hge.
    unfold bind at 1. unfold ESU.update at 1, modify at 1. simpl.
    unfold bind at 1. fold checkpoint.
    destruct checkpoint as [[[]|e] [self' tr']]; simpl in *; subst self'; reflexivity.
  - intros Hge encoder regressor domain_predictor PATH_ENCODER PATH_REGRESSOR
      PATH_DOMAIN -> -> todo saved. subst todo saved. apply fge_not_flt in Hge.
    unfold ESU.call. fold score.
    unfold bind at 1. unfold ESU.self_ at 1. simpl. rewrite Hbest, Hge.
    run_py. unfold verbose_line.
    destruct (ESU.verbose self); simpl;
    destruct (ESU.truthy PATH_ENCODER); simpl;
      try destruct (writable PATH_ENCODER); simpl;
    destruct (ESU.truthy PATH_REGRESSOR); simpl;
      try destruct (writable PATH_REGRESSOR); simpl;
    destruct (ESU.truthy PATH_DOMAIN); simpl;
      try destruct (writable PATH_DOMAIN); simpl;
    rewrite <- ?app_assoc, ?app_nil_r; reflexivity.
Qed.

(** A call never clears [early_stop], whether it returns or raises. *)
Lemma unlearning_call_keeps_stop (a : ESU.args Model Optimizer Loss)
    (h : ESU.heap StateDict) :
  ESU.early_stop (fst h) = true ->
  ESU.early_stop (fst (snd (ESU.call_with state_dict writable a h))) = true.
Proof.
  intros H. destruct h as [self tr]. simpl in H.
  destruct a as [val_loss model epoch optimizer loss PTH]. unfold ESU.call_with. simpl.
  set (score := (- val_loss)%float).
  pose proof (save_checkpoint_keeps_object val_loss model epoch optimizer loss PTH
                  (ESU.set_best_score score self, tr)) as Hobj.
  unfold ESU.call. fold score.
  unfold bind at 1. unfold ESU.self_ at 1. simpl.
  destruct (ESU.best_score self) as [best|].
  - destruct (flt score best).
    + run_py. destruct (_ <=? _); simpl; [reflexivity|exact H].
    + unfold bind at 1. unfold ESU.update at 1, modify at 1. simpl.
      unfold bind at 1.
      destruct (ESU.save_checkpoint _ _ _ _ _ _ _ _ _) as [[[]|e] [self' tr']];
        simpl in *; subst self'; exact H.
  - unfold bind at 1. unfold ESU.update at 1, modify at 1. simpl.
    rewrite Hobj. exact H.
Qed.

Lemma unlearning_calls_app (xs ys : list (ESU.args Model Optimizer Loss))
    (h : ESU.heap StateDict) :
  ESU.calls state_dict writable (xs ++ ys) h
  = ESU.calls state_dict writable ys (ESU.calls state_dict writable xs h).
Proof. revert h. induction xs as [|x xs IH]; intros h; simpl; [reflexivity|apply IH]. Qed.

Lemma unlearning_calls_keep_stop (ys : list (ESU.args Model Optimizer Loss))
    (h : ESU.heap StateDict) :
  ESU.early_stop (fst h) = true ->
  ESU.early_stop (fst (ESU.calls state_dict writable ys h)) = true.
Proof.
  revert h. induction ys as [|y ys IH]; intros h H; simpl; [exact H|].
  apply IH, unlearning_call_keeps_stop, H.
Qed.

(** C9. For both monitors, started from the freshly constructed object:
    if [early_stop] is true after some sequence of update calls, it is
    true after every longer sequence that begins with it. *)
Theorem early_stop_never_reverts :
  (forall (patience : Z) (min_delta : float) (before after : list float),
     EarlyStopping.early_stop (EarlyStopping.run patience min_delta before) = true ->
     EarlyStopping.early_stop
       (EarlyStopping.run patience min_delta (before ++ after)) = true)
  /\
  (forall (patience : Z) (verbose : bool)
          (before after : list (ESU.args Model Optimizer Loss)),
     ESU.early_stop (ESU.run state_dict writable patience verbose before) = true ->
     ESU.early_stop
       (ESU.run state_dict writable patience verbose (before ++ after)) = true).
Proof.
  split.
  - intros patience min_delta before after H. unfold EarlyStopping.run in *.
    rewrite EarlyStopping_calls_app. apply EarlyStopping_calls_keep_stop, H.
  - intros patience verbose before after H. unfold ESU.run in *.
    rewrite unlearning_calls_app. apply unlearning_calls_keep_stop, H.
Qed.

End Unlearning.

(** C3 (the claim as stated fails). The encoder's path cannot be written:
    the checkpoint raises [OSError] at the encoder, and [torch.save] is
    called neither for the regressor nor for the domain predictor, though
    both have a path. *)
Lemma failed_encoder_save_blocks_the_rest :
  let r := ESU.save_checkpoint (fun m : string => m) encoder_path_unwritable
             0.5%float ["encoder"; "regressor"; "domain"]%string 1 tt tt
             ["enc.pth"; "reg.pth"; "dom.pth"]%string (ESU.init 5 false, []) in
  fst r = Raise OSError
  /\ ESU.attempts (snd (snd r)) = ["enc.pth"%string]
  /\ ~ In "reg.pth"%string (ESU.attempts (snd (snd r)))
  /\ ~ In "dom.pth"%string (ESU.attempts (snd (snd r))).
Proof.
  vm_compute. repeat split; try reflexivity; intros [H|[]]; discriminate H.
Qed.

(** C8 (the claim as stated fails). A monitor with counter 1 and best
    score -0.5 is updated with the loss 0.25, an improvement, on a file
    system where the encoder's path cannot be written: the call raises
    [OSError] with the new [best_score] stored and the counter still 1,
    not 0. *)
Lemma failed_checkpoint_keeps_counter :
  let self := ESU.mk 5 false 1 (Some (-0.5)%float) false infinity in
  let r := ESU.call (fun m : string => m) encoder_path_unwritable
             0.25%float ["encoder"; "regressor"; "domain"]%string 1 tt tt
             ["enc.pth"; "reg.pth"; "dom.pth"]%string (self, []) in
  fge (- 0.25)%float (-0.5)%float = true
  /\ fst r = Raise OSError
  /\ ESU.best_score (fst (snd r)) = Some (-0.25)%float
  /\ ESU.counter (fst (snd r)) = 1
  /\ ESU.counter (fst (snd r)) <> 0.
Proof.
  vm_compute. repeat split; discriminate.
Qed.

(** A monitor with counter 1 and best score -0.5, updated with the better
    loss 0.25 and a bundle whose three paths can be written: the three
    components are saved in order and the counter is reset. *)
Lemma unlearning_update_after_first_witness :
  ESU.call (fun m : string => m) (fun _ => true) 0.25%float
    ["encoder"; "regressor"; "domain"]%string 1 tt tt
    ["enc.pth"; "reg.pth"; "dom.pth"]%string
    (ESU.mk 2 false 1 (Some (-0.5)%float) false infinity, [])
  = (Ret tt,
     (ESU.mk 2 false 0 (Some (-0.25)%float) false infinity,
      [ESU.Saved "enc.pth" "encoder"; ESU.Saved "reg.pth" "regressor";
       ESU.Saved "dom.pth" "domain"]%string)).
Proof.
  exact (proj2 (proj2 (unlearning_update_after_first (fun m : string => m)
                         (fun _ => true)
                         (ESU.mk 2 false 1 (Some (-0.5)%float) false infinity) []
                         (-0.5)%float 0.25%float
                         ["encoder"; "regressor"; "domain"]%string 1 tt tt
                         ["enc.pth"; "reg.pth"; "dom.pth"]%string eq_refl))
           eq_refl "encoder" "regressor" "domain" "enc.pth" "reg.pth" "dom.pth"
           eq_refl eq_refl)%string.
Defined.

(** Both monitors with [patience=1], stopped by a second, worse loss and
    then fed a better one. *)
Lemma early_stop_never_reverts_witness :
  EarlyStopping.early_stop
    (EarlyStopping.run 1 0%float ([1%float; 2%float] ++ [0.5%float])) = true
  /\ ESU.early_stop
       (ESU.run (fun m : unit => m) (fun _ => true) 1 false
          ([ESU.mk_args 1%float [] 0 tt tt []; ESU.mk_args 2%float [] 1 tt tt []]
           ++ [ESU.mk_args 0.5%float [] 2 tt tt []])) = true.
Proof.
  split.
  - apply (proj1 (early_stop_never_reverts (Optimizer:=unit) (Loss:=unit)
                    (fun m : unit => m) (fun _ => true))).
    reflexivity.
  - apply (proj2 (early_stop_never_reverts (Optimizer:=unit) (Loss:=unit)
                    (fun m : unit => m) (fun _ => true))).
    reflexivity.
Defined.

(** ** The cosine schedule *)

Section Schedulers.

Local Open Scope R_scope.

Lemma cosine_rampdown_value (current L : R) :
  0 < L -> 0 <= current <= L ->
  cosine_rampdown current L = Ret (0.5 * (cos (PI * current / L) + 1)).
Proof.
  intros HL [H0 H1]. unfold cosine_rampdown, py_div.
  destruct (Rle_dec 0 current) as [_|n]; [|contradiction].
  destruct (Rle_dec current L) as [_|n]; [|contradiction].
  destruct (Req_dec_T L 0) as [e|_]; [lra|reflexivity].
Qed.

(** The argument of the cosine stays between 0 and pi. *)
Lemma phase_in_range (current L : R) :
  0 < L -> 0 <= current <= L -> 0 <= PI * current / L <= PI.
Proof.
  intros HL [H0 H1]. pose proof PI_RGT_0 as Hpi.
  unfold Rdiv. split.
  - apply Rmult_le_pos; [apply Rmult_le_pos; lra|].
    left. apply Rinv_0_lt_compat, HL.
  - rewrite Rmult_assoc. rewrite <- (Rmult_1_r PI) at 2.
    apply Rmult_le_compat_l; [lra|].
    apply (Rmult_le_reg_r L); [exact HL|].
    rewrite Rmult_assoc, Rinv_l by lra. lra.
Qed.

Lemma phase_monotone (c1 c2 L : R) :
  0 < L -> c1 <= c2 -> PI * c1 / L <= PI * c2 / L.
Proof.
  intros HL H. pose proof PI_RGT_0 as Hpi. unfold Rdiv.
  apply Rmult_le_compat_r; [left; apply Rinv_0_lt_compat, HL|].
  apply Rmult_le_compat_l; lra.
Qed.

(** C6. For [L > 0]: on [0 <= current <= L] the call returns
    [0.5 * (cos(pi * current / L) + 1)]; a larger [current] never gives a
    larger value; the value is 1 at [current = 0] and 0 at [current = L]. *)
Theorem cosine_rampdown_decreases (L : R) :
  0 < L ->
  (forall current, 0 <= current <= L ->
     cosine_rampdown current L = Ret (0.5 * (cos (PI * current / L) + 1)))
  /\ (forall c1 c2 v1 v2, 0 <= c1 -> c1 <= c2 -> c2 <= L ->
        cosine_rampdown c1 L = Ret v1 -> cosine_rampdown c2 L = Ret v2 -> v2 <= v1)
  /\ cosine_rampdown 0 L = Ret 1
  /\ cosine_rampdown L L = Ret 0.
Proof.
  intros HL. repeat split.
  - intros current H. apply cosine_rampdown_value; assumption.
  - intros c1 c2 v1 v2 H0 H12 H2 E1 E2.
    rewrite cosine_rampdown_value in E1, E2 by lra.
    injection E1 as <-. injection E2 as <-.
    assert (cos (PI * c2 / L) <= cos (PI * c1 / L)).
    { apply cos_decr_1; try apply phase_in_range; try lra.
      apply phase_monotone; lra. }
    lra.
  - rewrite cosine_rampdown_value by lra. f_equal.
    replace (PI * 0 / L) with 0 by (unfold Rdiv; ring). rewrite cos_0. lra.
  - rewrite cosine_rampdown_value by lra. f_equal.
    replace (PI * L / L) with PI by (field; lra). rewrite cos_PI. lra.
Qed.

(** A rampdown over 10 epochs. *)
Lemma cosine_rampdown_decreases_witness :
  cosine_rampdown 0 10 = Ret 1 /\ cosine_rampdown 10 10 = Ret 0.
Proof.
  apply (cosine_rampdown_decreases 10). lra.
Defined.

End Schedulers.

(** ** The dice score *)

Section Dice.

Local Open Scope R_scope.

Lemma tmul_same_size (a b : list R) :
  List.length a = List.length b -> tmul a b = Ret (products a b).
Proof. intros H. unfold tmul. rewrite H, Nat.eqb_refl. reflexivity. Qed.

Lemma tsum_repeat (x : R) (n : nat) : tsum (repeat x n) = INR n * x.
Proof.
  induction n as [|n IH].
  - simpl. ring.
  - rewrite S_INR. simpl repeat. unfold tsum in *. simpl. rewrite IH. ring.
Qed.

Lemma products_repeat (x y : R) (n : nat) :
  products (repeat x n) (repeat y n) = repeat (x * y) n.
Proof.
  unfold products. induction n as [|n IH]; simpl; [reflexivity|].
  f_equal. exact IH.
Qed.

(** C7. For every [pred] and [target], [dice_score] returns
    [-(2 * sum(pred * target) + eps) / (sum(pred) + sum(target) + eps)]
    over the flattened tensors with [eps = 1e-4], where [pred * target] is
    the tensor product (and its error is the call's error when the sizes
    do not broadcast); for two tensors of one size the product is taken
    element by element. For an all-ones tensor [t] of any shape, so for
    every non-empty one, [dice_score(t, t)] is [-1], hence within [eps] of
    [-1]. *)
Theorem dice_score_formula :
  (forall pred target : tensor,
     dice_score pred target
     = prod <~ tmul (data pred) (data target) ;;
       Ret (- ((2 * tsum prod + 0.0001)
               / (tsum (data pred) + tsum (data target) + 0.0001))))
  /\
  (forall pred target : tensor,
     numel pred = numel target ->
     dice_score pred target
     = Ret (- ((2 * tsum (products (data pred) (data target)) + 0.0001)
               / (tsum (data pred) + tsum (data target) + 0.0001))))
  /\
  (forall sh : list nat,
     dice_score (ones sh) (ones sh) = Ret (-1)
     /\ forall v, dice_score (ones sh) (ones sh) = Ret v -> Rabs (v - -1) <= eps).
Proof.
  split; [|split].
  - intros pred target. reflexivity.
  - intros pred target H. unfold dice_score, reshape_flat.
    rewrite tmul_same_size by exact H. reflexivity.
  - intros sh.
    assert (E : dice_score (ones sh) (ones sh) = Ret (-1)).
    { unfold dice_score, reshape_flat. rewrite tmul_same_size by reflexivity.
      unfold ones, and_then. simpl data. set (n := fold_right Nat.mul 1%nat sh).
      rewrite products_repeat, !tsum_repeat. f_equal.
      pose proof (pos_INR n) as Hn. unfold eps. field. lra. }
    split; [exact E|]. intros v Hv. rewrite E in Hv. injection Hv as <-.
    replace (-1 - -1) with 0 by ring. rewrite Rabs_R0. unfold eps. lra.
Qed.

(** Two tensors of two elements. *)
Lemma dice_score_formula_witness :
  dice_score (mk_tensor [2%nat] [1; 0]) (mk_tensor [2%nat] [1; 1])
  = Ret (- ((2 * tsum (products [1; 0] [1; 1]) + 0.0001)
            / (tsum [1; 0] + tsum [1; 1] + 0.0001))).
Proof.
  apply (proj1 (proj2 dice_score_formula)
           (mk_tensor [2%nat] [1; 0]) (mk_tensor [2%nat] [1; 1])).
  reflexivity.
Defined.

End Dice.

(** ** The confusion loss *)

Section ConfusionLoss.

Local Open Scope R_scope.

Lemma forward_uniform (T : Type) (target : T) :
  confusion_loss.forward uniform_input target = ln 2.
Proof.
  unfold confusion_loss.forward, uniform_input, tsum. simpl.
  replace 0.5 with (/ 2) by lra. rewrite ln_Rinv by lra. field.
Qed.

Lemma forward_confident (T : Type) (target : T) :
  confusion_loss.forward confident_input target = - ln (0.99 * 0.01) / 2.
Proof.
  unfold confusion_loss.forward, confident_input, tsum. simpl.
  rewrite ln_mult by lra. field.
Qed.

Lemma ln_2_pos : 0 < ln 2.
Proof. rewrite <- ln_1. apply ln_increasing; lra. Qed.

Lemma forward_uniform_below_confident (T : Type) (target : T) :
  confusion_loss.forward uniform_input target
  < confusion_loss.forward confident_input target.
Proof.
  rewrite forward_uniform, forward_confident.
  assert (H : ln (0.99 * 0.01) < - (2 * ln 2)).
  { replace (- (2 * ln 2)) with (ln (/ (2 * 2))).
    - apply ln_increasing; lra.
    - rewrite ln_Rinv by lra. rewrite ln_mult by lra. ring. }
  lra.
Qed.

(** C2 (the claim as stated fails). The loss on [[0.5, 0.5]] is not
    larger than the loss on [[0.99, 0.01]]. *)
Lemma confusion_loss_not_larger_on_uniform :
  ~ (confusion_loss.forward confident_input tt
     < confusion_loss.forward uniform_input tt).
Proof.
  pose proof (forward_uniform_below_confident unit tt). lra.
Qed.

(** C2 (as amended). Whatever the target, the loss on the uniform input
    [[0.5, 0.5]] is smaller than the loss on the confident input
    [[0.99, 0.01]]; it is [ln 2], so it is positive, and so is the
    other. *)
Theorem confusion_loss_smaller_on_uniform (T : Type) (target : T) :
  confusion_loss.forward uniform_input target
  < confusion_loss.forward confident_input target
  /\ confusion_loss.forward uniform_input target = ln 2
  /\ 0 < confusion_loss.forward uniform_input target.
Proof.
  split; [apply forward_uniform_below_confident|].
  rewrite forward_uniform. split; [reflexivity|apply ln_2_pos].
Qed.

End ConfusionLoss.

(** ** The validation loop *)

Section Validation.

Import validation.

Context {B : Backend}.
Variable model : tensor -> outcome tensor.
Variable metric_fns : list metric_fn.
Variable epoch : Z.
Variable out_channels : nat.
Variable experiment_name : string.
Variable one_hot : bool.

Local Open Scope R_scope.


(** An iteration that returns adds the batch loss and counts one step. *)
Lemma body_returns (b : batch) (l l' : locals) :
  body model metric_fns out_channels one_hot b l = Ret l' ->
  exists m o d,
    forward_pass model out_channels one_hot b = Ret (m, o, d)
    /\ val_loss l' = val_loss l + d
    /\ num_steps l' = (num_steps l + 1)%Z.
Proof.
  unfold body. destruct (forward_pass model out_channels one_hot b) as [[[m o] d]|e];
    simpl; [|discriminate].
  destruct (metric_loop _ _ _ _ _) as [dict|e]; simpl; [|discriminate].
  intros H. injection H as <-. exists m, o, d. simpl. auto.
Qed.

Lemma loop_returns (loader : list batch) (l l' : locals) :
  loop model metric_fns out_channels one_hot loader l = Ret l' ->
  exists losses,
    Forall2 (fun b d => exists m o,
               forward_pass model out_channels one_hot b = Ret (m, o, d))
            loader losses
    /\ val_loss l' = val_loss l + tsum losses
    /\ num_steps l' = (num_steps l + Z.of_nat (List.length loader))%Z.
Proof.
  revert l. induction loader as [|b rest IH]; intros l; simpl.
  - intros H. injection H as <-. exists []. repeat split; [constructor|simpl; ring|lia].
  - destruct (body model metric_fns out_channels one_hot b l) as [l1|e] eqn:Hb;
      simpl; [|discriminate].
    intros H. destruct (body_returns _ _ _ Hb) as (m & o & d & Hf & Hv & Hn).
    destruct (IH _ H) as (losses & HF & Hv' & Hn').
    exists (d :: losses). repeat split.
    + constructor; [exists m, o; exact Hf|exact HF].
    + rewrite Hv', Hv. simpl. ring.
    + rewrite Hn', Hn. lia.
Qed.


End Validation.


(** ** Patch extraction *)

Local Open Scope nat_scope.

Section AssignRows.

Context {P : Type}.

(** Writing [m] items over the [i]-th block of [m] rows. *)
Lemma assign_rows_block (dst src : list P) (i m : nat) :
  List.length src = m -> i * m + m <= List.length dst ->
  patches.assign_rows dst (i * m) (m * (i + 1)) src
  = Ret (firstn (i * m) dst ++ src ++ skipn (i * m + m) dst).
Proof.
  intros Hs Hd. unfold patches.assign_rows.
  replace (Nat.min (i * m) (List.length dst)) with (i * m) by lia.
  replace (Nat.max (i * m) (Nat.min (m * (i + 1)) (List.length dst)))
    with (i * m + m) by lia.
  replace (i * m + m - i * m) with m by lia.
  rewrite Hs, Nat.eqb_refl. reflexivity.
Qed.

Lemma block_length (dst src : list P) (i m : nat) :
  List.length src = m -> i * m + m <= List.length dst ->
  List.length (firstn (i * m) dst ++ src ++ skipn (i * m + m) dst) = List.length dst.
Proof.
  intros Hs Hd. rewrite !length_app, length_firstn, length_skipn. lia.
Qed.

Lemma block_before (dst src : list P) (i m j : nat) :
  i * m + m <= List.length dst -> j < i * m ->
  nth_error (firstn (i * m) dst ++ src ++ skipn (i * m + m) dst) j = nth_error dst j.
Proof.
  intros Hd Hj. rewrite nth_error_app1 by (rewrite length_firstn; lia).
  rewrite nth_error_firstn. destruct (Nat.ltb_spec j (i * m)); [reflexivity|lia].
Qed.

Lemma block_inside (dst src : list P) (i m k : nat) :
  List.length src = m -> i * m + m <= List.length dst -> k < m ->
  nth_error (firstn (i * m) dst ++ src ++ skipn (i * m + m) dst) (i * m + k)
  = nth_error src k.
Proof.
  intros Hs Hd Hk. rewrite nth_error_app2 by (rewrite length_firstn; lia).
  rewrite length_firstn. replace (i * m + k - Nat.min (i * m) (List.length dst)) with k by lia.
  apply nth_error_app1. lia.
Qed.

(** Writing a single item over the [i]-th block of [m] rows copies it to
    every row of the block. *)
Lemma assign_rows_broadcast (dst : list P) (x : P) (i m : nat) :
  m <> 1 -> i * m + m <= List.length dst ->
  patches.assign_rows dst (i * m) (m * (i + 1)) [x]
  = Ret (firstn (i * m) dst ++ repeat x m ++ skipn (i * m + m) dst).
Proof.
  intros Hm Hd. unfold patches.assign_rows.
  replace (Nat.min (i * m) (List.length dst)) with (i * m) by lia.
  replace (Nat.max (i * m) (Nat.min (m * (i + 1)) (List.length dst)))
    with (i * m + m) by lia.
  replace (i * m + m - i * m) with m by lia.
  cbn [List.length]. destruct (Nat.eqb_spec 1 m); [lia|reflexivity].
Qed.

End AssignRows.

Section CropShape.

Context {E : Type}.

Lemma crop_shape (a : list (list E)) (i j p_h p_w : nat) :
  rectangular a -> i + p_h <= patches.height a -> j + p_w <= patches.width a ->
  patch_shape p_h p_w (patches.crop a i j p_h p_w).
Proof.
  intros Hr Hi Hj. unfold patch_shape, patches.crop, patches.height in *. split.
  - rewrite length_map, length_firstn, length_skipn. lia.
  - apply Forall_map, Forall_forall. intros r Hin.
    apply (In_nth_error _ _) in Hin as [n Hn].
    assert (Hr' : In r a).
    { rewrite nth_error_firstn in Hn. destruct (n <? p_h); [|discriminate].
      rewrite nth_error_skipn in Hn. eapply nth_error_In, Hn. }
    unfold rectangular in Hr. rewrite Forall_forall in Hr. specialize (Hr r Hr').
    rewrite length_firstn, length_skipn. lia.
Qed.

Lemma map_patch_shape {F : Type} (f : E -> F) (p_h p_w : nat) (p : list (list E)) :
  patch_shape p_h p_w p -> patch_shape p_h p_w (map (map f) p).
Proof.
  intros [Hl Hr]. split; [rewrite length_map; exact Hl|].
  apply Forall_map. revert Hr. apply Forall_impl. intros r Hlen.
  rewrite length_map. exact Hlen.
Qed.

End CropShape.

Section PatchData.

Variable draw : Z -> nat -> nat -> nat -> nat -> nat * nat.
Context {Img Msk F32 U8 : Type}.
Variable to_float32 : Img -> F32.
Variable to_uint8 : Msk -> U8.
Variable img_finite : Img -> bool.
Variable msk_finite : Msk -> bool.
Variable junk32 : F32.
Variable junk8 : U8.

Lemma compute_n_patches_exact (i_h i_w p_h p_w m : nat) :
  0 < m -> m <= (i_h - p_h + 1) * (i_w - p_w + 1) ->
  patches.compute_n_patches i_h i_w p_h p_w m = m.
Proof.
  intros Hm Hall. unfold patches.compute_n_patches.
  destruct (Nat.eqb_spec m 0); [lia|].
  destruct (Nat.ltb_spec m ((i_h - p_h + 1) * (i_w - p_w + 1))); lia.
Qed.

(** [check_array] accepts an array of finite elements that has a row and
    a column. *)
Lemma check_array_accepts {E : Type} (finite : E -> bool) (a : list (list E)) :
  1 <= patches.height a -> 1 <= patches.width a -> all_finite finite a ->
  patches.check_array finite a = true.
Proof.
  intros Hh Hw Hf. unfold patches.check_array.
  destruct (Nat.leb_spec 1 (patches.height a)); [|lia].
  destruct (Nat.leb_spec 1 (patches.width a)); [|lia].
  cbn [andb]. apply forallb_forall. intros r Hr. apply forallb_forall. intros x Hx.
  unfold all_finite in Hf. rewrite Forall_forall in Hf.
  specialize (Hf r Hr). rewrite Forall_forall in Hf. exact (Hf x Hx).
Qed.

(** With a patch that fits and enough corners, [max_patches] corners are
    drawn. *)
Lemma extract_patches_2d_drawn {E : Type} (finite : E -> bool) (a : list (list E))
    (p_h p_w m : nat) (rv : Z) :
  all_finite finite a -> 1 <= p_h -> 1 <= p_w ->
  p_h <= patches.height a -> p_w <= patches.width a -> 0 < m ->
  m <= (patches.height a - p_h + 1) * (patches.width a - p_w + 1) ->
  patches.extract_patches_2d draw finite a (p_h, p_w) m rv
  = Ret (map (fun c => patches.crop a (fst c) (snd c) p_h p_w)
           (map (draw rv (patches.height a - p_h + 1) (patches.width a - p_w + 1) m)
                (seq 0 m))).
Proof.
  intros Hf Hr Hc Hh Hw Hm Hall. unfold patches.extract_patches_2d.
  destruct (Nat.ltb_spec (patches.height a) p_h); [lia|].
  destruct (Nat.ltb_spec (patches.width a) p_w); [lia|].
  rewrite check_array_accepts by (assumption || lia). cbn [negb].
  rewrite compute_n_patches_exact by assumption.
  destruct (Nat.eqb_spec m 0); [lia|].
  destruct (Nat.eqb_spec p_h 0); [lia|].
  destruct (Nat.eqb_spec p_w 0); [lia|]. reflexivity.
Qed.

(** With a single corner, one patch is returned whatever [max_patches] is. *)
Lemma extract_patches_2d_single {E : Type} (finite : E -> bool) (a : list (list E))
    (p_h p_w m : nat) (rv : Z) :
  all_finite finite a -> 1 <= p_h -> 1 <= p_w ->
  p_h <= patches.height a -> p_w <= patches.width a ->
  positions a p_h p_w = 1 ->
  let c := if m =? 0 then (0, 0)
           else draw rv (patches.height a - p_h + 1) (patches.width a - p_w + 1)
                     (positions a p_h p_w) 0 in
  patches.extract_patches_2d draw finite a (p_h, p_w) m rv
  = Ret [patches.crop a (fst c) (snd c) p_h p_w].
Proof.
  intros Hf Hr Hc Hh Hw Hone c. subst c. rewrite Hone.
  unfold positions in Hone. unfold patches.extract_patches_2d.
  destruct (Nat.ltb_spec (patches.height a) p_h); [lia|].
  destruct (Nat.ltb_spec (patches.width a) p_w); [lia|].
  rewrite check_array_accepts by (assumption || lia). cbn [negb].
  destruct (Nat.eqb_spec p_h 0); [lia|].
  destruct (Nat.eqb_spec p_w 0); [lia|]. cbn [orb].
  assert (Hnh : patches.height a - p_h + 1 = 1) by nia.
  assert (Hnw : patches.width a - p_w + 1 = 1) by nia.
  unfold patches.compute_n_patches. rewrite Hnh, Hnw.
  destruct (Nat.eqb_spec m 0); [reflexivity|].
  destruct (Nat.ltb_spec m (1 * 1)); [lia|]. reflexivity.
Qed.

Lemma map_constant_seq {A : Type} (x : A) (f : nat -> A) (start n : nat) :
  (forall k, f k = x) -> map f (seq start n) = repeat x n.
Proof.
  intros Hf. revert start. induction n as [|n IH]; intros start; [reflexivity|].
  cbn [seq map repeat]. rewrite Hf, IH. reflexivity.
Qed.

(** What the patches drawn from an array that fits leave in a block of
    [m] rows: row [k] holds the window at the [k]-th corner. *)
Lemma extracted_rows {E F : Type} (finite : E -> bool) (f : E -> F)
    (a : list (list E)) (p_h p_w m : nat) (rv : Z) :
  all_finite finite a -> 1 <= p_h -> 1 <= p_w ->
  p_h <= patches.height a -> p_w <= patches.width a ->
  1 <= m <= positions a p_h p_w \/ positions a p_h p_w = 1 ->
  exists ps,
    patches.extract_patches_2d draw finite a (p_h, p_w) m rv = Ret ps
    /\ forall (dst : list (list (list F))) (i : nat),
         i * m + m <= List.length dst ->
         patches.assign_rows dst (i * m) (m * (i + 1)) (map (map (map f)) ps)
         = Ret (firstn (i * m) dst
                ++ map (fun k =>
                          let c := corner draw rv a p_h p_w m k in
                          map (map f) (patches.crop a (fst c) (snd c) p_h p_w))
                       (seq 0 m)
                ++ skipn (i * m + m) dst).
Proof.
  intros Hf Hr Hc Hh Hw Hcount.
  assert (Hcases : 1 <= m <= positions a p_h p_w
                   \/ (positions a p_h p_w = 1 /\ m <> 1)) by lia.
  clear Hcount. destruct Hcases as [[Hm Hall]|[Hone Hm]].
  - eexists. split.
    + apply extract_patches_2d_drawn; assumption.
    + intros dst i Hd.
      rewrite assign_rows_block
        by (rewrite ?length_map, ?length_seq; first [reflexivity|assumption]).
      rewrite !map_map. do 3 f_equal. apply map_ext. intros k.
      unfold corner. unfold positions in Hall.
      destruct (Nat.leb_spec m ((patches.height a - p_h + 1)
                                * (patches.width a - p_w + 1))); [reflexivity|lia].
  - eexists. split.
    + apply extract_patches_2d_single; assumption.
    + intros dst i Hd. cbn [map].
      rewrite assign_rows_broadcast by assumption. do 3 f_equal.
      destruct (Nat.eqb_spec m 0) as [->|Hm0]; [reflexivity|].
      symmetry. apply map_constant_seq. intros k.
      unfold corner. unfold positions in *. rewrite Hone.
      destruct (Nat.leb_spec m 1); [lia|]. reflexivity.
Qed.

(** A drawn corner leaves room for the patch. *)
Lemma corner_inside {E : Type} (a : list (list E)) (p_h p_w m k : nat) (rv : Z) :
  in_range draw -> p_h <= patches.height a -> p_w <= patches.width a -> k < m ->
  fst (corner draw rv a p_h p_w m k) + p_h <= patches.height a
  /\ snd (corner draw rv a p_h p_w m k) + p_w <= patches.width a.
Proof.
  intros Hdraw Hh Hw Hk. unfold corner.
  destruct (Nat.leb_spec m ((patches.height a - p_h + 1) * (patches.width a - p_w + 1))).
  - destruct (Hdraw rv (patches.height a - p_h + 1) (patches.width a - p_w + 1) m k)
      as [Hi Hj]; lia.
  - destruct (Hdraw rv (patches.height a - p_h + 1) (patches.width a - p_w + 1)
                ((patches.height a - p_h + 1) * (patches.width a - p_w + 1)) 0)
      as [Hi Hj]; nia.
Qed.

Variable dataset : list (patches.sample Img Msk).
Variables p_h p_w m : nat.
Variable rv : Z.
Hypothesis Hdraw : in_range draw.
Hypothesis Hfits : Forall (fits img_finite msk_finite p_h p_w m) dataset.

(** The rows written for the [k]-th patch of a sample: the windows of its
    image and of its mask at the [k]-th corner. *)
Let image_row (s : patches.sample Img Msk) (k : nat) : list (list F32) :=
  let c := corner draw rv (patches.input s) p_h p_w m k in
  map (map to_float32) (patches.crop (patches.input s) (fst c) (snd c) p_h p_w).
Let mask_row (s : patches.sample Img Msk) (k : nat) : list (list U8) :=
  let c := corner draw rv (patches.input s) p_h p_w m k in
  map (map to_uint8) (patches.crop (patches.gt s) (fst c) (snd c) p_h p_w).

(** The blocks of the samples below [i0] hold their patches. *)
Let filled (i0 : nat) (A : list (list (list F32))) (M : list (list (list U8))) : Prop :=
  forall i k s, i < i0 -> k < m -> nth_error dataset i = Some s ->
    nth_error A (i * m + k) = Some (image_row s k)
    /\ nth_error M (i * m + k) = Some (mask_row s k).

Lemma body_fills (i : nat) (s : patches.sample Img Msk)
    (A : list (list (list F32))) (M : list (list (list U8))) :
  nth_error dataset i = Some s ->
  i * m + m <= List.length A -> i * m + m <= List.length M ->
  patches.body draw to_float32 to_uint8 img_finite msk_finite dataset (p_h, p_w) m rv
    i (A, M)
  = Ret (firstn (i * m) A ++ map (image_row s) (seq 0 m) ++ skipn (i * m + m) A,
         firstn (i * m) M ++ map (mask_row s) (seq 0 m) ++ skipn (i * m + m) M).
Proof.
  intros Hs HA HM. unfold patches.body. rewrite Hs.
  assert (Hf : fits img_finite msk_finite p_h p_w m s).
  { rewrite Forall_forall in Hfits. eapply Hfits, nth_error_In, Hs. }
  destruct Hf as [_ _ Hfi Hfg Hsh Hsw Hr Hc Hh Hw Hcount].
  assert (Hcorner : forall k, corner draw rv (patches.gt s) p_h p_w m k
                              = corner draw rv (patches.input s) p_h p_w m k).
  { intros k. unfold corner. rewrite Hsh, Hsw. reflexivity. }
  destruct (extracted_rows img_finite to_float32 (patches.input s) p_h p_w m rv)
    as (ips & -> & Hia); try assumption.
  destruct (extracted_rows msk_finite to_uint8 (patches.gt s) p_h p_w m rv)
    as (mps & -> & Hma); try assumption.
  { rewrite Hsh. exact Hh. }
  { rewrite Hsw. exact Hw. }
  { unfold positions in *. rewrite Hsh, Hsw. exact Hcount. }
  unfold and_then. rewrite Hia, Hma by assumption.
  match goal with |- context [map ?f (seq 0 m) ++ skipn _ M] =>
    rewrite (map_ext f (mask_row s))
      by (intros k; cbn zeta; rewrite Hcorner; reflexivity) end.
  reflexivity.
Qed.

Lemma loop_fills (cnt i0 : nat) (A : list (list (list F32))) (M : list (list (list U8))) :
  i0 + cnt = List.length dataset ->
  List.length A = List.length dataset * m ->
  List.length M = List.length dataset * m ->
  filled i0 A M ->
  exists A' M',
    patches.loop draw to_float32 to_uint8 img_finite msk_finite dataset (p_h, p_w) m rv
      (seq i0 cnt) (A, M)
    = Ret (A', M')
    /\ List.length A' = List.length dataset * m
    /\ List.length M' = List.length dataset * m
    /\ filled (List.length dataset) A' M'.
Proof.
  revert i0 A M. induction cnt as [|cnt IH]; intros i0 A M Hn HA HM Hfill.
  - simpl. exists A, M. rewrite Nat.add_0_r in Hn. subst i0. auto.
  - destruct (nth_error dataset i0) as [s|] eqn:Hs;
      [|apply nth_error_None in Hs; lia].
    assert (Hblock : i0 * m + m <= List.length dataset * m) by nia.
    change (seq i0 (S cnt)) with (i0 :: seq (S i0) cnt). cbn [patches.loop].
    rewrite (body_fills i0 s) by (rewrite ?HA, ?HM; assumption).
    unfold and_then. apply IH.
    + lia.
    + rewrite block_length by (rewrite ?length_map, ?length_seq, ?HA; auto). exact HA.
    + rewrite block_length by (rewrite ?length_map, ?length_seq, ?HM; auto). exact HM.
    + intros i k s' Hi Hk Hs'.
      destruct (Nat.eq_dec i i0) as [->|Hne].
      * rewrite Hs in Hs'. injection Hs' as <-.
        rewrite !block_inside
          by (rewrite ?length_map, ?length_seq, ?HA, ?HM; auto).
        rewrite !nth_error_map, nth_error_seq.
        destruct (Nat.ltb_spec k m); [|lia]. simpl. auto.
      * assert (i * m + k < i0 * m) by nia.
        rewrite !block_before by (rewrite ?HA, ?HM; assumption).
        apply Hfill; [lia|assumption|assumption].
Qed.

Lemma rows_have_patch_shape (s : patches.sample Img Msk) (k : nat) :
  In s dataset -> k < m ->
  patch_shape p_h p_w (image_row s k) /\ patch_shape p_h p_w (mask_row s k).
Proof.
  intros Hs Hk. rewrite Forall_forall in Hfits.
  destruct (Hfits s Hs) as [Hri Hrg _ _ Hsh Hsw _ _ Hh Hw _].
  destruct (corner_inside (patches.input s) p_h p_w m k rv Hdraw Hh Hw Hk) as [Hi Hj].
  split; apply map_patch_shape, crop_shape; try assumption; lia.
Qed.

Lemma filled_shapes (A : list (list (list F32))) (M : list (list (list U8))) :
  List.length A = List.length dataset * m ->
  List.length M = List.length dataset * m ->
  filled (List.length dataset) A M ->
  Forall (patch_shape p_h p_w) A /\ Forall (patch_shape p_h p_w) M.
Proof.
  intros HA HM Hfill.
  assert (Hrow : forall j, j < List.length dataset * m ->
            exists s k, In s dataset /\ k < m
              /\ nth_error A j = Some (image_row s k)
              /\ nth_error M j = Some (mask_row s k)).
  { intros j Hj.
    assert (Hm : 0 < m) by nia.
    assert (Hi : j / m < List.length dataset) by (apply Nat.Div0.div_lt_upper_bound; lia).
    assert (Hk : j mod m < m) by (apply Nat.mod_upper_bound; lia).
    destruct (nth_error dataset (j / m)) as [s|] eqn:Hs;
      [|apply nth_error_None in Hs; lia].
    exists s, (j mod m). split; [eapply nth_error_In, Hs|]. split; [exact Hk|].
    replace j with (j / m * m + j mod m) at 1 3
      by (rewrite (Nat.div_mod_eq j m) at 3; lia).
    apply Hfill; assumption. }
  split; apply Forall_forall; intros p Hp; apply In_nth_error in Hp as [j Hj].
  - assert (Hlt : j < List.length dataset * m)
      by (rewrite <- HA; apply nth_error_Some; congruence).
    destruct (Hrow j Hlt) as (s & k & Hs & Hk & Ha & _).
    rewrite Ha in Hj. injection Hj as <-. apply rows_have_patch_shape; assumption.
  - assert (Hlt : j < List.length dataset * m)
      by (rewrite <- HM; apply nth_error_Some; congruence).
    destruct (Hrow j Hlt) as (s & k & Hs & Hk & _ & Hb).
    rewrite Hb in Hj. injection Hj as <-. apply rows_have_patch_shape; assumption.
Qed.

(** C10 (as amended). Let every sample have a rectangular image and mask
    of one shape, without NaN or infinite pixels, let the patch have at
    least one row and one column and be no larger than them, let
    [1 <= m <=] the number of patch corners of each sample, or let each
    sample have a single corner, and let the generator draw corners inside
    the image. Then [patch_data] returns two arrays of [n * m] patches of
    [p_h] rows and [p_w] columns; for every sample [i] and [k < m], row
    [i * m + k] of the first is the window of sample [i]'s image, and row
    [i * m + k] of the second the window of its mask, at one and the same
    corner: the [k]-th corner drawn for [random_value] (with a single
    corner, the one patch in every row). *)
Theorem patch_data_rows :
  exists images_patches masks_patches,
    patches.patch_data draw to_float32 to_uint8 img_finite msk_finite junk32 junk8
      dataset (p_h, p_w) m rv
    = Ret (images_patches, masks_patches)
    /\ List.length images_patches = List.length dataset * m
    /\ Forall (patch_shape p_h p_w) images_patches
    /\ List.length masks_patches = List.length dataset * m
    /\ Forall (patch_shape p_h p_w) masks_patches
    /\ forall i k s,
         nth_error dataset i = Some s -> k < m ->
         let c := corner draw rv (patches.input s) p_h p_w m k in
         nth_error images_patches (i * m + k)
         = Some (map (map to_float32)
                   (patches.crop (patches.input s) (fst c) (snd c) p_h p_w))
         /\ nth_error masks_patches (i * m + k)
            = Some (map (map to_uint8)
                      (patches.crop (patches.gt s) (fst c) (snd c) p_h p_w)).
Proof.
  unfold patches.patch_data. cbn [fst snd].
  destruct (loop_fills (List.length dataset) 0
              (patches.ndarray junk32 (List.length dataset * m) p_h p_w)
              (patches.ndarray junk8 (List.length dataset * m) p_h p_w))
    as (A & M & Hloop & HA & HM & Hfill).
  - reflexivity.
  - apply repeat_length.
  - apply repeat_length.
  - intros i k s Hi. lia.
  - exists A, M. destruct (filled_shapes A M HA HM Hfill) as [HsA HsM].
    repeat split; try assumption.
    + apply (Hfill i k s); [|assumption|assumption].
      apply nth_error_Some. congruence.
    + apply (Hfill i k s); [|assumption|assumption].
      apply nth_error_Some. congruence.
Qed.

End PatchData.

(** C10 (the claim as stated fails). A dataset of one 1x1 image and a
    patch size of 2x2: [patch_data] raises [ValueError] and returns no
    array. *)
Lemma patch_larger_than_image_raises :
  patches.patch_data draw_origin (fun x : nat => x) (fun x : nat => x)
    (fun _ => true) (fun _ => true) 0 0
    [patches.mk_sample [[7]] [[1]]] (2, 2) 1 0%Z
  = Raise ValueError.
Proof. reflexivity. Qed.

(** One 2x2 sample, two patches of one pixel. *)
Lemma patch_data_rows_witness :
  exists images_patches masks_patches,
    patches.patch_data draw_origin (fun x : nat => x) (fun x : nat => x)
      (fun _ => true) (fun _ => true) 0 0
      [patches.mk_sample [[1; 2]; [3; 4]] [[0; 1]; [1; 0]]] (1, 1) 2 5%Z
    = Ret (images_patches, masks_patches)
    /\ List.length images_patches = 1 * 2
    /\ Forall (patch_shape 1 1) images_patches
    /\ List.length masks_patches = 1 * 2
    /\ Forall (patch_shape 1 1) masks_patches
    /\ forall i k s,
         nth_error [patches.mk_sample [[1; 2]; [3; 4]] [[0; 1]; [1; 0]]] i = Some s ->
         k < 2 ->
         let c := corner draw_origin 5%Z (patches.input s) 1 1 2 k in
         nth_error images_patches (i * 2 + k)
         = Some (map (map (fun x : nat => x))
                   (patches.crop (patches.input s) (fst c) (snd c) 1 1))
         /\ nth_error masks_patches (i * 2 + k)
            = Some (map (map (fun x : nat => x))
                      (patches.crop (patches.gt s) (fst c) (snd c) 1 1)).
Proof.
  apply (patch_data_rows draw_origin (fun x : nat => x) (fun x : nat => x)
           (fun _ => true) (fun _ => true) 0 0
           [patches.mk_sample [[1; 2]; [3; 4]] [[0; 1]; [1; 0]]] 1 1 2 5%Z).
  - intros seed n_h n_w n k Hh Hw Hk. simpl. split; assumption.
  - constructor; [|constructor].
    constructor; simpl; try lia; repeat constructor.
Defined.

(** ** More on the schedulers *)

Section MoreSchedulers.

Local Open Scope R_scope.

Lemma exp_monotone (x y : R) : x <= y -> exp x <= exp y.
Proof.
  intros [H| ->]; [left; apply exp_increasing, H|right; reflexivity].
Qed.

(** X1. For [L > 0] and [0 <= current <= L], [cosine_rampdown] returns a
    value between 0 and 1. *)
Theorem cosine_rampdown_in_unit_interval (current L : R) :
  0 < L -> 0 <= current <= L ->
  exists v, cosine_rampdown current L = Ret v /\ 0 <= v <= 1.
Proof.
  intros HL Hc. rewrite cosine_rampdown_value by assumption.
  eexists. split; [reflexivity|].
  pose proof (COS_bound (PI * current / L)) as [Hlo Hhi]. lra.
Qed.

Lemma cosine_rampdown_in_unit_interval_witness :
  exists v, cosine_rampdown 3 10 = Ret v /\ 0 <= v <= 1.
Proof. apply cosine_rampdown_in_unit_interval; lra. Defined.

(** X2. [cosine_rampdown] fails its assertion when [current] is negative
    and when [current] exceeds the length, whatever the length; with
    [current = 0] and length 0 the assertion passes and the division
    raises [ZeroDivisionError]. *)
Theorem cosine_rampdown_rejects (current L : R) :
  (current < 0 -> cosine_rampdown current L = Raise AssertionError)
  /\ (L < current -> cosine_rampdown current L = Raise AssertionError)
  /\ cosine_rampdown 0 0 = Raise ZeroDivisionError.
Proof.
  unfold cosine_rampdown, py_div. repeat split.
  - intros H. destruct (Rle_dec 0 current); [lra|reflexivity].
  - intros H. destruct (Rle_dec 0 current); [|reflexivity].
    destruct (Rle_dec current L); [lra|reflexivity].
  - destruct (Rle_dec 0 0) as [_|n]; [|lra].
    destruct (Req_dec_T 0 0) as [_|n]; [reflexivity|lra].
Qed.

Lemma cosine_rampdown_rejects_witness :
  cosine_rampdown (-1) 10 = Raise AssertionError
  /\ cosine_rampdown 11 10 = Raise AssertionError.
Proof.
  split.
  - apply (proj1 (cosine_rampdown_rejects (-1) 10)). lra.
  - apply (proj1 (proj2 (cosine_rampdown_rejects 11 10))). lra.
Defined.

Lemma cosine_lr_value (epoch L lr0 : R) :
  0 < L -> 0 <= epoch <= L ->
  cosine_lr epoch L lr0 = Ret (lr0 * (0.5 * (cos (PI * epoch / L) + 1))).
Proof.
  intros HL He. unfold cosine_lr. rewrite cosine_rampdown_value by assumption.
  reflexivity.
Qed.

(** X3. For [L > 0] and a non-negative initial rate, [cosine_lr] starts
    at the initial rate (epoch 0), ends at 0 (epoch [L]), stays between 0
    and the initial rate, and never grows from one epoch to a later one. *)
Theorem cosine_lr_anneals (L lr0 : R) :
  0 < L -> 0 <= lr0 ->
  cosine_lr 0 L lr0 = Ret lr0
  /\ cosine_lr L L lr0 = Ret 0
  /\ (forall epoch, 0 <= epoch <= L ->
        exists v, cosine_lr epoch L lr0 = Ret v /\ 0 <= v <= lr0)
  /\ (forall e1 e2 v1 v2, 0 <= e1 -> e1 <= e2 -> e2 <= L ->
        cosine_lr e1 L lr0 = Ret v1 -> cosine_lr e2 L lr0 = Ret v2 -> v2 <= v1).
Proof.
  intros HL Hlr. repeat split.
  - rewrite cosine_lr_value by lra. f_equal.
    replace (PI * 0 / L) with 0 by (unfold Rdiv; ring). rewrite cos_0. lra.
  - rewrite cosine_lr_value by lra. f_equal.
    replace (PI * L / L) with PI by (field; lra). rewrite cos_PI. lra.
  - intros epoch He. rewrite cosine_lr_value by assumption.
    eexists. split; [reflexivity|].
    pose proof (COS_bound (PI * epoch / L)) as [Hlo Hhi]. nra.
  - intros e1 e2 v1 v2 H0 H12 H2 E1 E2.
    rewrite cosine_lr_value in E1, E2 by lra.
    injection E1 as <-. injection E2 as <-.
    assert (cos (PI * e2 / L) <= cos (PI * e1 / L)).
    { apply cos_decr_1; try apply phase_in_range; try lra.
      apply phase_monotone; lra. }
    nra.
Qed.

Lemma cosine_lr_anneals_witness :
  cosine_lr 0 100 0.001 = Ret 0.001 /\ cosine_lr 100 100 0.001 = Ret 0.
Proof.
  destruct (cosine_lr_anneals 100 0.001) as (H0 & H1 & _); [lra|lra|].
  split; assumption.
Defined.

Lemma np_clip_between (a lo hi : R) : lo <= hi -> lo <= np_clip a lo hi <= hi.
Proof.
  intros H. unfold np_clip, Rmin, Rmax.
  destruct (Rle_dec a lo); destruct (Rle_dec hi _); lra.
Qed.

Lemma np_clip_monotone (a b lo hi : R) : a <= b -> np_clip a lo hi <= np_clip b lo hi.
Proof.
  intros H. unfold np_clip, Rmin, Rmax.
  destruct (Rle_dec a lo); destruct (Rle_dec b lo);
    repeat match goal with |- context [Rle_dec ?x ?y] => destruct (Rle_dec x y) end; lra.
Qed.

Lemma sigmoid_rampup_value (current L : R) :
  0 < L ->
  sigmoid_rampup current L
  = exp (-5 * (1 - np_clip current 0 L / L) * (1 - np_clip current 0 L / L)).
Proof.
  intros HL. unfold sigmoid_rampup. destruct (Req_dec_T L 0); [lra|reflexivity].
Qed.

Lemma phase_between (current L : R) :
  0 < L -> 0 <= 1 - np_clip current 0 L / L <= 1.
Proof.
  intros HL. pose proof (np_clip_between current 0 L (Rlt_le _ _ HL)) as [Hlo Hhi].
  assert (0 <= np_clip current 0 L / L <= 1).
  { split.
    - apply Rmult_le_pos; [exact Hlo|left; apply Rinv_0_lt_compat, HL].
    - apply (Rmult_le_reg_r L); [exact HL|].
      unfold Rdiv. rewrite Rmult_assoc, Rinv_l by lra. lra. }
  lra.
Qed.

Lemma square_between (p : R) : 0 <= p <= 1 -> 0 <= p * p <= 1.
Proof. intros [Hlo Hhi]. split; nra. Qed.

Lemma sigmoid_rampup_between (current L : R) :
  0 < L -> exp (-5) <= sigmoid_rampup current L <= 1.
Proof.
  intros HL. rewrite sigmoid_rampup_value by exact HL.
  pose proof (square_between _ (phase_between current L HL)) as [Hlo Hhi].
  split; [apply exp_monotone; nra|].
  apply Rle_trans with (exp 0); [apply exp_monotone; nra|rewrite exp_0; lra].
Qed.

Lemma sigmoid_rampup_saturates (current L : R) :
  0 < L -> L <= current -> sigmoid_rampup current L = 1.
Proof.
  intros HL H. rewrite sigmoid_rampup_value by exact HL.
  replace (np_clip current 0 L) with L.
  - transitivity (exp 0); [f_equal; field; lra|apply exp_0].
  - unfold np_clip, Rmin, Rmax.
    destruct (Rle_dec current 0); destruct (Rle_dec L _); lra.
Qed.

(** With [a_min > a_max], or [a >= a_max >= a_min], the clip is [a_max]. *)
Lemma np_clip_inverted (a lo hi : R) : hi <= lo -> np_clip a lo hi = hi.
Proof.
  intros H. unfold np_clip, Rmin, Rmax.
  destruct (Rle_dec a lo); destruct (Rle_dec hi _); lra.
Qed.

(** X4. For a ramp length [L > 0], [sigmoid_rampup] lies between
    [exp(-5)] and 1, never decreases when [current] grows, is [exp(-5)]
    for every [current <= 0] and 1 for every [current >= L]: values
    outside [0, L] are clipped, not rejected. *)
Theorem sigmoid_rampup_ramps (L : R) :
  0 < L ->
  (forall current, exp (-5) <= sigmoid_rampup current L <= 1)
  /\ (forall c1 c2, c1 <= c2 -> sigmoid_rampup c1 L <= sigmoid_rampup c2 L)
  /\ (forall current, current <= 0 -> sigmoid_rampup current L = exp (-5))
  /\ (forall current, L <= current -> sigmoid_rampup current L = 1).
Proof.
  intros HL. split; [|split; [|split]].
  - intros current. apply sigmoid_rampup_between, HL.
  - intros c1 c2 H. rewrite !sigmoid_rampup_value by exact HL.
    pose proof (phase_between c1 L HL) as [Hlo1 Hhi1].
    pose proof (phase_between c2 L HL) as [Hlo2 Hhi2].
    pose proof (np_clip_monotone c1 c2 0 L H) as Hm.
    assert (np_clip c1 0 L / L <= np_clip c2 0 L / L).
    { unfold Rdiv. apply Rmult_le_compat_r; [left; apply Rinv_0_lt_compat, HL|exact Hm]. }
    apply exp_monotone. nra.
  - intros current H. rewrite sigmoid_rampup_value by exact HL.
    replace (np_clip current 0 L) with 0.
    + f_equal. unfold Rdiv. ring.
    + unfold np_clip, Rmin, Rmax.
      destruct (Rle_dec current 0); destruct (Rle_dec L _); lra.
  - intros current H. apply sigmoid_rampup_saturates; assumption.
Qed.

Lemma sigmoid_rampup_ramps_witness :
  sigmoid_rampup 0 30 = exp (-5) /\ sigmoid_rampup 30 30 = 1.
Proof.
  destruct (sigmoid_rampup_ramps 30) as (_ & _ & H0 & H1); [lra|].
  split; [apply H0|apply H1]; lra.
Defined.

(** X5. With a ramp length of 0 or below, [sigmoid_rampup] is 1 for
    every [current]: 0 by the explicit test, a negative length because
    [np.clip] with [a_min > a_max] returns [a_max], which makes the phase
    0. *)
Theorem sigmoid_rampup_without_ramp (current L : R) :
  L <= 0 -> sigmoid_rampup current L = 1.
Proof.
  intros HL. unfold sigmoid_rampup. destruct (Req_dec_T L 0) as [_|Hne]; [reflexivity|].
  rewrite np_clip_inverted by exact HL.
  transitivity (exp 0); [f_equal; field; exact Hne|apply exp_0].
Qed.

Lemma sigmoid_rampup_without_ramp_witness :
  sigmoid_rampup 7 0 = 1 /\ sigmoid_rampup 7 (-3) = 1.
Proof. split; apply sigmoid_rampup_without_ramp; lra. Defined.

(** X6. For a non-negative [weight],
    [get_current_consistency_weight] lies between [weight * exp(-5)] and
    [weight] for every epoch and every ramp length, and is [weight] once
    the epoch has reached the ramp length. *)
Theorem consistency_weight_bounds (weight epoch rampup : R) :
  0 <= weight ->
  weight * exp (-5) <= get_current_consistency_weight weight epoch rampup <= weight
  /\ (rampup <= epoch -> get_current_consistency_weight weight epoch rampup = weight).
Proof.
  intros Hw. unfold get_current_consistency_weight.
  assert (Hs : exp (-5) <= sigmoid_rampup epoch rampup <= 1
               /\ (rampup <= epoch -> sigmoid_rampup epoch rampup = 1)).
  { destruct (Rlt_le_dec 0 rampup) as [Hpos|Hneg].
    - split; [apply sigmoid_rampup_between, Hpos|].
      intros H. apply sigmoid_rampup_saturates; assumption.
    - assert (E : sigmoid_rampup epoch rampup = 1).
      { unfold sigmoid_rampup. destruct (Req_dec_T rampup 0) as [_|Hne]; [reflexivity|].
        rewrite np_clip_inverted by exact Hneg.
        transitivity (exp 0); [f_equal; field; exact Hne|apply exp_0]. }
      rewrite E. split; [|reflexivity]. split; [|lra].
      apply Rle_trans with (exp 0); [apply exp_monotone; lra|rewrite exp_0; lra]. }
  destruct Hs as [[Hlo Hhi] H1]. split; [nra|].
  intros H. rewrite (H1 H). ring.
Qed.

Lemma consistency_weight_bounds_witness :
  10 * exp (-5) <= get_current_consistency_weight 10 3 30 <= 10.
Proof. apply (consistency_weight_bounds 10 3 30). lra. Defined.

Lemma scheduled_lr_step (n : nat) (lr : R) :
  scheduled_lr (S n) lr = scheduler (Z.of_nat n) (scheduled_lr n lr).
Proof.
  unfold scheduled_lr. rewrite seq_S, fold_left_app. reflexivity.
Qed.

Lemma halving_epochs (n : nat) :
  (n / 5 = (if (Z.of_nat n mod 5 =? 0)%Z && negb (Z.of_nat n =? 0)%Z
            then S ((n - 1) / 5) else (n - 1) / 5))%nat.
Proof.
  pose proof (Nat.div_mod_eq n 5) as E. pose proof (Nat.mod_upper_bound n 5) as B.
  pose proof (Nat.div_mod_eq (n - 1) 5) as E'.
  pose proof (Nat.mod_upper_bound (n - 1) 5) as B'.
  replace (Z.of_nat n mod 5)%Z with (Z.of_nat (n mod 5))
    by (rewrite Nat2Z.inj_mod; reflexivity).
  destruct (Z.eqb_spec (Z.of_nat (n mod 5)) 0); destruct (Z.eqb_spec (Z.of_nat n) 0);
    cbn [andb negb]; lia.
Qed.

(** X7. Calling [scheduler] once per epoch, for the epochs [0 .. n-1] in
    order and each time on the rate it returned before, divides the rate
    by 2 once for every non-zero multiple of 5 among those epochs: the
    result is [lr / 2^((n-1) div 5)]. *)
Theorem scheduler_halves_every_fifth_epoch (n : nat) (lr : R) :
  scheduled_lr n lr = lr / 2 ^ ((n - 1) / 5).
Proof.
  induction n as [|n IH].
  - simpl. unfold scheduled_lr. simpl. field.
  - rewrite scheduled_lr_step, IH. replace (S n - 1)%nat with n by lia.
    rewrite (halving_epochs n). unfold scheduler.
    destruct ((Z.of_nat n mod 5 =? 0)%Z && negb (Z.of_nat n =? 0)%Z).
    + simpl pow. field. apply pow_nonzero. lra.
    + reflexivity.
Qed.

End MoreSchedulers.

(** ** More on the comparison of binary64 numbers *)

Local Open Scope Z_scope.

(** A number that is below another is not above it. *)
Lemma flt_not_fgt (a b : float) : flt a b = true -> fgt a b = false.
Proof.
  unfold flt, fgt. rewrite !ltb_spec. unfold SFltb.
  rewrite (SFcompare_swap (Prim2SF a) (Prim2SF b)).
  destruct (SFcompare (Prim2SF a) (Prim2SF b)) as [[]|]; simpl; congruence.
Qed.

Lemma Prim2SF_nan (x : float) : is_nan x = true -> Prim2SF x = S754_nan.
Proof. intros H. unfold Prim2SF. rewrite H. reflexivity. Qed.

(** A difference with a NaN operand is unordered with everything. *)
Lemma nan_difference_unordered (a b d : float) :
  is_nan a = true \/ is_nan b = true ->
  flt (a - b)%float d = false /\ fgt (a - b)%float d = false.
Proof.
  intros H. unfold flt, fgt. rewrite !ltb_spec, sub_spec. unfold SFltb, SF64sub.
  assert (E : SFsub prec emax (Prim2SF a) (Prim2SF b) = S754_nan).
  { destruct H as [H|H]; rewrite (Prim2SF_nan _ H); [reflexivity|].
    destruct (Prim2SF a); reflexivity. }
  rewrite E. split; [reflexivity|]. destruct (Prim2SF d); reflexivity.
Qed.

(** ** More on the simple early-stopping monitor *)

Ltac split_leb :=
  repeat match goal with
         | |- context [(?a <=? ?b)%Z] => destruct (Z.leb_spec a b)
         end.

Ltac run_es :=
  unfold ES.call, ES.update, ES.print, ES.self_, when, bind, ret, modify; simpl.

Lemma call_keeps_parameters (val_loss : float) (h : ES.heap) :
  ES.patience (fst (snd (ES.call val_loss h))) = ES.patience (fst h)
  /\ ES.min_delta (fst (snd (ES.call val_loss h))) = ES.min_delta (fst h).
Proof.
  destruct h as [self out]. run_es.
  destruct (ES.best_loss self); simpl; [|auto].
  destruct (fgt _ _); simpl; [auto|].
  destruct (flt _ _); simpl; [|auto].
  destruct (_ <=? _); simpl; auto.
Qed.

Lemma call_keeps_stop_reflects_counter (val_loss : float) (h : ES.heap) :
  stop_reflects_counter (fst h) ->
  stop_reflects_counter (fst (snd (ES.call val_loss h))).
Proof.
  destruct h as [self out]. unfold stop_reflects_counter. simpl. intros [Hc He].
  run_es.
  destruct (ES.best_loss self); simpl; [|auto].
  destruct (fgt _ _); simpl; [auto|].
  destruct (flt _ _); simpl; [|auto].
  destruct (ES.patience self <=? ES.counter self + 1) eqn:E; simpl; rewrite ?E;
    (split; [lia|]).
  - destruct (Z.leb_spec 1 (ES.counter self + 1)); [reflexivity|lia].
  - rewrite He. apply Z.leb_gt in E.
    destruct (Z.leb_spec (ES.patience self) (ES.counter self)); [lia|reflexivity].
Qed.

Lemma calls_keep_stop_reflects_counter (losses : list float) (h : ES.heap) :
  stop_reflects_counter (fst h) ->
  stop_reflects_counter (fst (ES.calls losses h))
  /\ ES.patience (fst (ES.calls losses h)) = ES.patience (fst h).
Proof.
  revert h. induction losses as [|l rest IH]; intros h H; simpl; [auto|].
  destruct (IH (snd (ES.call l h)) (call_keeps_stop_reflects_counter l h H)) as [H1 H2].
  split; [exact H1|]. rewrite H2. apply call_keeps_parameters.
Qed.

(** X8. After any sequence of calls on a freshly constructed monitor the
    counter is not negative, and [early_stop] is true exactly when the
    counter is at least 1 and has reached [patience] (so with
    [patience <= 0] the first counted call already stops). *)
Theorem early_stop_reflects_counter (patience : Z) (min_delta : float)
    (losses : list float) :
  let self := ES.run patience min_delta losses in
  0 <= ES.counter self
  /\ ES.early_stop self = (patience <=? ES.counter self) && (1 <=? ES.counter self).
Proof.
  unfold ES.run.
  destruct (calls_keep_stop_reflects_counter losses (ES.init patience min_delta, []))
    as [[Hc He] Hp].
  - split; simpl; [lia|]. rewrite andb_false_r. reflexivity.
  - simpl in Hp. rewrite Hp in He. simpl. auto.
Qed.

Lemma call_counter_steps (val_loss : float) (h : ES.heap) :
  ES.counter (fst h) <= ES.counter (fst (snd (ES.call val_loss h)))
                     <= ES.counter (fst h) + 1
  /\ (ES.best_loss (fst (snd (ES.call val_loss h))) <> None).
Proof.
  destruct h as [self out]. run_es.
  destruct (ES.best_loss self) eqn:Hb; simpl; [|split; [lia|discriminate]].
  destruct (fgt _ _); simpl; [split; [lia|discriminate]|].
  destruct (flt _ _); simpl; [|split; [lia|congruence]].
  destruct (_ <=? _); simpl; split; try lia; congruence.
Qed.

Lemma calls_counter_grows (losses : list float) (h : ES.heap) :
  ES.counter (fst h) <= ES.counter (fst (ES.calls losses h))
                     <= ES.counter (fst h) + Z.of_nat (List.length losses).
Proof.
  revert h. induction losses as [|l rest IH]; intros h; [simpl; lia|].
  cbn [ES.calls List.length]. specialize (IH (snd (ES.call l h))).
  pose proof (call_counter_steps l h) as [H _]. lia.
Qed.

(** X9. The counter never goes down and grows by at most one per call:
    no call resets it, not even an improvement, so the non-improving
    epochs that lead to a stop need not be consecutive. *)
Theorem counter_never_decreases (patience : Z) (min_delta : float)
    (before after : list float) :
  ES.counter (ES.run patience min_delta before)
  <= ES.counter (ES.run patience min_delta (before ++ after))
  <= ES.counter (ES.run patience min_delta before) + Z.of_nat (List.length after).
Proof.
  unfold ES.run. rewrite EarlyStopping_calls_app. apply calls_counter_grows.
Qed.

(** X10. A NaN never moves the monitor: once [best_loss] is set, a call
    whose loss is NaN, or any call when [best_loss] itself is NaN, changes
    nothing and prints nothing. So when the first loss is NaN, it is
    stored as [best_loss] and every later call is a no-op: the monitor
    never counts and never stops. *)
Theorem nan_loss_freezes_monitor :
  (forall (self : ES.t) (out : list string) (best val_loss : float),
     ES.best_loss self = Some best ->
     is_nan best = true \/ is_nan val_loss = true ->
     ES.call val_loss (self, out) = (Ret tt, (self, out)))
  /\
  (forall (patience : Z) (min_delta first : float) (rest : list float),
     is_nan first = true ->
     ES.calls (first :: rest) (ES.init patience min_delta, [])
     = (ES.mk patience min_delta 0 (Some first) false, [])).
Proof.
  assert (Hcall : forall self out best val_loss,
            ES.best_loss self = Some best ->
            is_nan best = true \/ is_nan val_loss = true ->
            ES.call val_loss (self, out) = (Ret tt, (self, out))).
  { intros self out best val_loss Hb Hnan.
    destruct (nan_difference_unordered best val_loss (ES.min_delta self) Hnan)
      as [Hlt Hgt].
    run_es. rewrite Hb, Hgt, Hlt. reflexivity. }
  split; [exact Hcall|].
  intros patience min_delta first rest Hnan. cbn [ES.calls].
  change (snd (ES.call first (ES.init patience min_delta, [])))
    with (ES.mk patience min_delta 0 (Some first) false, @nil string).
  induction rest as [|l rest IH]; [reflexivity|].
  cbn [ES.calls].
  rewrite (Hcall (ES.mk patience min_delta 0 (Some first) false) [] first l eq_refl
             (or_introl Hnan)).
  exact IH.
Qed.

Lemma nan_loss_freezes_monitor_witness :
  ES.calls [nan; 1%float; 2%float; 3%float] (ES.init 1 0%float, [])
  = (ES.mk 1 0%float 0 (Some nan) false, []).
Proof. apply (proj2 nan_loss_freezes_monitor). reflexivity. Defined.

(** One call with a loss that does not improve by the margin. *)
Lemma non_improving_call (self : ES.t) (out : list string) (best l : float) :
  ES.best_loss self = Some best ->
  flt (best - l)%float (ES.min_delta self) = true ->
  fst (snd (ES.call l (self, out)))
  = ES.mk (ES.patience self) (ES.min_delta self) (ES.counter self + 1) (Some best)
      (ES.early_stop self || (ES.patience self <=? ES.counter self + 1)).
Proof.
  intros Hb Hl. run_es. rewrite Hb, (flt_not_fgt _ _ Hl), Hl. simpl.
  unfold ES.set_early_stop, ES.incr_counter. simpl. rewrite Hb.
  destruct (ES.patience self <=? ES.counter self + 1); simpl;
    rewrite ?orb_true_r, ?orb_false_r; reflexivity.
Qed.

(** X11. From a monitor whose [best_loss] is set, [n] calls whose losses
    all fall short of the margin ([best_loss - loss < min_delta]) add [n]
    to the counter and leave [best_loss] alone; [early_stop] is then set
    exactly if it was set before or the counter has reached [patience]
    (with [n >= 1]). *)
Theorem non_improving_calls_count (self : ES.t) (out : list string) (best : float)
    (losses : list float) :
  ES.best_loss self = Some best ->
  Forall (fun l => flt (best - l)%float (ES.min_delta self) = true) losses ->
  let n := Z.of_nat (List.length losses) in
  let self' := fst (ES.calls losses (self, out)) in
  ES.counter self' = ES.counter self + n
  /\ ES.best_loss self' = Some best
  /\ ES.early_stop self'
     = ES.early_stop self || ((ES.patience self <=? ES.counter self + n) && (1 <=? n)).
Proof.
  intros Hb Hall. revert self out Hb Hall.
  induction losses as [|l rest IH]; intros self out Hb Hall.
  - simpl. rewrite Z.add_0_r, andb_false_r, orb_false_r. auto.
  - inversion Hall as [|? ? Hl Hrest]; subst.
    cbn [ES.calls List.length].
    pose proof (non_improving_call self out best l Hb Hl) as Hstep.
    destruct (snd (ES.call l (self, out))) as [s o]. simpl in Hstep. subst s.
    match goal with |- context [ES.calls rest (?s, ?o)] =>
      destruct (IH s o eq_refl Hrest) as (Hc & Hbl & He) end.
    cbn [ES.counter ES.patience ES.early_stop ES.min_delta] in Hc, Hbl, He.
    cbv zeta. rewrite Hc, Hbl, He, Nat2Z.inj_succ.
    split; [lia|]. split; [reflexivity|].
    set (n := Z.of_nat (List.length rest)).
    assert (0 <= n) by (unfold n; lia).
    destruct (ES.early_stop self); simpl; [reflexivity|].
    split_leb; simpl; try reflexivity; lia.
Qed.

Lemma non_improving_calls_count_witness :
  let self' := fst (ES.calls [2%float; 3%float]
                      (ES.mk 2 0%float 0 (Some 1%float) false, [])) in
  ES.counter self' = 0 + 2
  /\ ES.best_loss self' = Some 1%float
  /\ ES.early_stop self' = false || ((2 <=? 0 + 2) && (1 <=? 2)).
Proof.
  apply (non_improving_calls_count (ES.mk 2 0%float 0 (Some 1%float) false) []
           1%float [2%float; 3%float] eq_refl).
  repeat constructor.
Defined.

(** ** More on the checkpointing early-stopping monitor *)

Local Open Scope Z_scope.

(** Nothing is below a NaN, and a negated NaN is below nothing. *)
Lemma nan_score_not_worse (val_loss best : float) :
  is_nan val_loss = true \/ is_nan best = true ->
  flt (- val_loss)%float best = false.
Proof.
  intros H. unfold flt. rewrite ltb_spec, opp_spec. unfold SFltb.
  destruct H as [H|H]; rewrite (Prim2SF_nan _ H); [reflexivity|].
  destruct (SFopp (Prim2SF val_loss)); reflexivity.
Qed.

Section MoreUnlearning.

Context {Model StateDict Optimizer Loss : Type}.
Variable state_dict : Model -> StateDict.
Variable writable : string -> bool.

Ltac run_esu :=
  unfold ESU.save_checkpoint, ESU.call, ESU.torch_save, ESU.unpack3, ESU.print,
    ESU.emit, ESU.update, ESU.self_, when, bind, ret, raise, modify; simpl.

(** The update taken when the score is not below [best_score]. *)
Lemma checkpoint_branch (self : ESU.t) (tr : list (ESU.event StateDict))
    (best val_loss : float) (model : list Model) (epoch : Z) (optimizer : Optimizer)
    (loss : Loss) (PTH : list string) :
  ESU.best_score self = Some best ->
  flt (- val_loss)%float best = false ->
  let checkpoint :=
    ESU.save_checkpoint state_dict writable val_loss model epoch optimizer loss PTH
      (ESU.set_best_score (- val_loss)%float self, tr) in
  ESU.call state_dict writable val_loss model epoch optimizer loss PTH (self, tr)
  = match fst checkpoint with
    | Ret _ => (Ret tt, (ESU.reset_counter (ESU.set_best_score (- val_loss)%float self),
                         snd (snd checkpoint)))
    | Raise e => (Raise e, (ESU.set_best_score (- val_loss)%float self,
                            snd (snd checkpoint)))
    end.
Proof.
  intros Hbest Hge checkpoint.
  pose proof (save_checkpoint_keeps_object state_dict writable val_loss model epoch
                optimizer loss PTH
                (ESU.set_best_score (- val_loss)%float self, tr)) as Hobj.
  fold checkpoint in Hobj. simpl in Hobj.
  unfold ESU.call.
  unfold bind at 1. unfold ESU.self_ at 1. simpl. rewrite Hbest, Hge.
  unfold bind at 1. unfold ESU.update at 1, modify at 1. simpl.
  unfold bind at 1. fold checkpoint.
  destruct checkpoint as [[[]|e] [self' tr']]; simpl in *; subst self'; reflexivity.
Qed.

(** X12. A NaN is never a worse score. Once [best_score] is set, an
    update whose loss is NaN, or any update while [best_score] is NaN,
    takes the improvement branch: the negated loss is stored as
    [best_score], [save_checkpoint] runs and, when it returns, the counter
    is reset to 0. *)
Theorem nan_loss_is_checkpointed (self : ESU.t) (tr : list (ESU.event StateDict))
    (best val_loss : float) (model : list Model) (epoch : Z) (optimizer : Optimizer)
    (loss : Loss) (PTH : list string) :
  ESU.best_score self = Some best ->
  is_nan val_loss = true \/ is_nan best = true ->
  let checkpoint :=
    ESU.save_checkpoint state_dict writable val_loss model epoch optimizer loss PTH
      (ESU.set_best_score (- val_loss)%float self, tr) in
  ESU.call state_dict writable val_loss model epoch optimizer loss PTH (self, tr)
  = match fst checkpoint with
    | Ret _ => (Ret tt, (ESU.reset_counter (ESU.set_best_score (- val_loss)%float self),
                         snd (snd checkpoint)))
    | Raise e => (Raise e, (ESU.set_best_score (- val_loss)%float self,
                            snd (snd checkpoint)))
    end.
Proof.
  intros Hbest Hnan. apply (checkpoint_branch self tr best); [exact Hbest|].
  apply nan_score_not_worse, Hnan.
Qed.

(** One update with a worse score. *)
Lemma worse_call (self : ESU.t) (tr : list (ESU.event StateDict))
    (best : float) (a : ESU.args Model Optimizer Loss) :
  ESU.best_score self = Some best ->
  flt (- ESU.a_val_loss _ _ _ a)%float best = true ->
  ESU.call_with state_dict writable a (self, tr)
  = (Ret tt,
     (worse_update self,
      tr ++ [ESU.Printed [PStr "Early Stopping Counter: ";
                          PInt (ESU.counter self + 1);
                          PStr "/"; PInt (ESU.patience self)]])).
Proof.
  intros Hbest Hlt. destruct a as [val_loss model epoch optimizer loss PTH].
  simpl in Hlt. unfold ESU.call_with. simpl. unfold ESU.call.
  unfold bind at 1. unfold ESU.self_ at 1. simpl. rewrite Hbest, Hlt.
  run_esu. unfold worse_update.
  destruct (ESU.patience self <=? ESU.counter self + 1); reflexivity.
Qed.

Lemma attempts_app (tr1 tr2 : list (ESU.event StateDict)) :
  ESU.attempts (tr1 ++ tr2) = ESU.attempts tr1 ++ ESU.attempts tr2.
Proof.
  induction tr1 as [|[args|p sd|p] tr1 IH]; simpl; rewrite ?IH; reflexivity.
Qed.

(** X13. From a monitor whose [best_score] is set, [n] updates whose
    scores are all below it add [n] to the counter, keep [best_score], set
    [early_stop] exactly if it was set before or the counter has reached
    [patience] (with [n >= 1]), and call [torch.save] not once. *)
Theorem worse_updates_count (self : ESU.t) (tr : list (ESU.event StateDict))
    (best : float) (l : list (ESU.args Model Optimizer Loss)) :
  ESU.best_score self = Some best ->
  Forall (fun a => flt (- ESU.a_val_loss _ _ _ a)%float best = true) l ->
  let n := Z.of_nat (List.length l) in
  let h' := ESU.calls state_dict writable l (self, tr) in
  fst h'
  = ESU.mk (ESU.patience self) (ESU.verbose self) (ESU.counter self + n) (Some best)
      (ESU.early_stop self || ((ESU.patience self <=? ESU.counter self + n) && (1 <=? n)))
      (ESU.val_loss_min self)
  /\ ESU.attempts (snd h') = ESU.attempts tr.
Proof.
  intros Hb Hall. revert self tr Hb Hall.
  induction l as [|a rest IH]; intros self tr Hb Hall.
  - simpl. rewrite Z.add_0_r, andb_false_r, orb_false_r.
    split; [|reflexivity]. destruct self; simpl in *. subst. reflexivity.
  - inversion Hall as [|? ? Ha Hrest]; subst.
    cbn [ESU.calls List.length]. rewrite (worse_call self tr best a Hb Ha).
    cbn [snd]. rewrite Nat2Z.inj_succ.
    match goal with |- context [ESU.calls _ _ rest (?s, ?t)] =>
      destruct (IH s t Hb Hrest) as (Hobj & Hatt) end.
    cbv zeta. rewrite Hobj, Hatt, attempts_app.
    cbn [ESU.attempts]. rewrite app_nil_r.
    split; [|reflexivity].
    set (n := Z.of_nat (List.length rest)).
    assert (0 <= n) by (unfold n; lia).
    unfold worse_update.
    cbn [ESU.patience ESU.verbose ESU.counter ESU.early_stop ESU.val_loss_min].
    f_equal; [lia|].
    destruct (ESU.early_stop self); simpl; [split_leb; reflexivity|].
    split_leb; simpl; try reflexivity; lia.
Qed.

(** A call rewrites [counter], [best_score] and [early_stop] only. *)
Lemma call_keeps_settings (a : ESU.args Model Optimizer Loss)
    (h : ESU.heap StateDict) :
  exists c b e,
    fst (snd (ESU.call_with state_dict writable a h))
    = ESU.mk (ESU.patience (fst h)) (ESU.verbose (fst h)) c b e
        (ESU.val_loss_min (fst h)).
Proof.
  destruct h as [self tr]. destruct a as [val_loss model epoch optimizer loss PTH].
  unfold ESU.call_with. simpl.
  pose proof (save_checkpoint_keeps_object state_dict writable val_loss model epoch
                optimizer loss PTH
                (ESU.set_best_score (- val_loss)%float self, tr)) as Hobj.
  unfold ESU.call.
  unfold bind at 1. unfold ESU.self_ at 1. simpl.
  destruct (ESU.best_score self) as [best|].
  - destruct (flt (- val_loss)%float best).
    + run_esu. destruct (_ <=? _); simpl; eexists _, _, _; reflexivity.
    + unfold bind at 1. unfold ESU.update at 1, modify at 1. simpl.
      unfold bind at 1.
      destruct (ESU.save_checkpoint _ _ _ _ _ _ _ _ _) as [[[]|e] [self' tr']];
        simpl in *; subst self'; simpl; eexists _, _, _; reflexivity.
  - unfold bind at 1. unfold ESU.update at 1, modify at 1. simpl.
    rewrite Hobj. simpl. eexists _, _, _; reflexivity.
Qed.

Lemma calls_keep_settings (l : list (ESU.args Model Optimizer Loss))
    (h : ESU.heap StateDict) :
  let self' := fst (ESU.calls state_dict writable l h) in
  ESU.patience self' = ESU.patience (fst h)
  /\ ESU.verbose self' = ESU.verbose (fst h)
  /\ ESU.val_loss_min self' = ESU.val_loss_min (fst h).
Proof.
  revert h. induction l as [|a rest IH]; intros h.
  - simpl. repeat split.
  - cbn [ESU.calls]. cbv zeta.
    destruct (call_keeps_settings a h) as (c & b & e & Hcall).
    destruct (IH (snd (ESU.call_with state_dict writable a h))) as (Hp & Hv & Hm).
    rewrite Hcall in Hp, Hv, Hm. simpl in Hp, Hv, Hm.
    rewrite Hp, Hv, Hm. repeat split.
Qed.

(** X14. No sequence of updates changes [patience], [verbose] or
    [val_loss_min]. For a freshly constructed monitor [val_loss_min] thus
    stays [np.Inf], and the message a verbose checkpoint prints names
    [inf] as the previous minimum every time. *)
Theorem settings_never_change :
  (forall (l : list (ESU.args Model Optimizer Loss)) (h : ESU.heap StateDict),
     let self' := fst (ESU.calls state_dict writable l h) in
     ESU.patience self' = ESU.patience (fst h)
     /\ ESU.verbose self' = ESU.verbose (fst h)
     /\ ESU.val_loss_min self' = ESU.val_loss_min (fst h))
  /\
  (forall (patience : Z) (verbose : bool) (l : list (ESU.args Model Optimizer Loss))
          (val_loss : float),
     let self' := ESU.run state_dict writable patience verbose l in
     ESU.val_loss_min self' = infinity
     /\ @verbose_line StateDict self' val_loss
        = if verbose
          then [ESU.Printed [PStr "Validation loss decreased: "; PFloat infinity;
                             PStr " --> "; PFloat val_loss; PStr "Saving model ..."]]
          else []).
Proof.
  split; [exact calls_keep_settings|].
  intros patience verbose l val_loss. unfold ESU.run. cbv zeta.
  destruct (calls_keep_settings l (ESU.init patience verbose, [])) as (_ & Hv & Hm).
  simpl in Hv, Hm. split; [exact Hm|].
  unfold verbose_line. rewrite Hv, Hm. reflexivity.
Qed.

(** X15. With a list of models or of paths that has not exactly three
    items, [save_checkpoint] raises [ValueError] after the verbose
    message and before any [torch.save]; on a first update [__call__] has
    by then stored [best_score], so the exception leaves a monitor that
    treats the next update as a later one. *)
Theorem malformed_bundle_raises (self : ESU.t) (tr : list (ESU.event StateDict))
    (val_loss : float) (models : list Model) (epoch : Z) (optimizer : Optimizer)
    (loss : Loss) (PTHS : list string) :
  List.length models <> 3%nat \/ List.length PTHS <> 3%nat ->
  ESU.save_checkpoint state_dict writable val_loss models epoch optimizer loss PTHS
    (self, tr)
  = (Raise ValueError, (self, tr ++ verbose_line self val_loss))
  /\ (ESU.best_score self = None ->
      ESU.call state_dict writable val_loss models epoch optimizer loss PTHS (self, tr)
      = (Raise ValueError,
         (ESU.set_best_score (- val_loss)%float self,
          tr ++ verbose_line self val_loss))).
Proof.
  intros Hbad.
  assert (Hsave : forall s : ESU.t,
            ESU.save_checkpoint state_dict writable val_loss models epoch optimizer
              loss PTHS (s, tr)
            = (Raise ValueError, (s, tr ++ verbose_line s val_loss))).
  { intros s. run_esu. unfold verbose_line.
    destruct (ESU.verbose s); simpl;
      destruct models as [|m1 [|m2 [|m3 [|m4 ms]]]]; simpl;
      rewrite ?app_nil_r; try reflexivity;
      destruct PTHS as [|p1 [|p2 [|p3 [|p4 ps]]]]; simpl;
      rewrite ?app_nil_r; try reflexivity;
      destruct Hbad as [H|H]; exfalso; apply H; reflexivity. }
  split; [apply Hsave|].
  intros Hnone. unfold ESU.call.
  unfold bind at 1. unfold ESU.self_ at 1. simpl. rewrite Hnone.
  unfold bind at 1. unfold ESU.update at 1, modify at 1. simpl.
  rewrite Hsave. reflexivity.
Qed.

End MoreUnlearning.

(** A NaN loss after a best score of -0.5, every path writable. *)
Lemma nan_loss_is_checkpointed_witness :
  ESU.call (fun m : string => m) (fun _ => true) nan
    ["e"; "r"; "d"]%string 3 tt tt ["e.pth"; "r.pth"; "d.pth"]%string
    (ESU.mk 2 false 1 (Some (-0.5)%float) false infinity, [])
  = (Ret tt,
     (ESU.mk 2 false 0 (Some (- nan)%float) false infinity,
      [ESU.Saved "e.pth" "e"; ESU.Saved "r.pth" "r"; ESU.Saved "d.pth" "d"]%string)).
Proof.
  rewrite (nan_loss_is_checkpointed (fun m : string => m) (fun _ => true)
             (ESU.mk 2 false 1 (Some (-0.5)%float) false infinity) []
             (-0.5)%float nan _ 3 tt tt _ eq_refl (or_introl eq_refl)).
  reflexivity.
Defined.

(** Two worse losses after a best score of -0.5, with [patience=2]. *)
Lemma worse_updates_count_witness :
  fst (ESU.calls (fun m : unit => m) (fun _ => true)
         [ESU.mk_args 0.75%float [] 1 tt tt []; ESU.mk_args 1%float [] 2 tt tt []]
         (ESU.mk 2 false 0 (Some (-0.5)%float) false infinity, []))
  = ESU.mk 2 false (0 + 2) (Some (-0.5)%float)
      (false || ((2 <=? 0 + 2) && (1 <=? 2))) infinity.
Proof.
  apply (worse_updates_count (fun m : unit => m) (fun _ => true)
           (ESU.mk 2 false 0 (Some (-0.5)%float) false infinity) [] (-0.5)%float
           [ESU.mk_args 0.75%float [] 1 tt tt []; ESU.mk_args 1%float [] 2 tt tt []]
           eq_refl).
  repeat constructor.
Defined.

(** A bundle of two models on the first update. *)
Lemma malformed_bundle_raises_witness :
  ESU.call (fun m : unit => m) (fun _ => true) 0.5%float [tt; tt] 0 tt tt
    ["e.pth"; "r.pth"; "d.pth"]%string (ESU.init 5 false, [])
  = (Raise ValueError, (ESU.set_best_score (- 0.5)%float (ESU.init 5 false), [])).
Proof.
  apply (proj2 (malformed_bundle_raises (fun m : unit => m) (fun _ => true)
                  (ESU.init 5 false) [] 0.5%float [tt; tt] 0 tt tt
                  ["e.pth"; "r.pth"; "d.pth"]%string
                  (or_introl (fun H : 2%nat = 3%nat => ltac:(discriminate H))))).
  reflexivity.
Defined.

(** ** More on the dice score *)

Section MoreDice.

Local Open Scope R_scope.

Lemma tsum_cons (x : R) (l : list R) : tsum (x :: l) = x + tsum l.
Proof. reflexivity. Qed.

Lemma products_cons (x y : R) (a b : list R) :
  products (x :: a) (y :: b) = x * y :: products a b.
Proof. reflexivity. Qed.

Lemma tsum_unit_valued (l : list R) : unit_valued l -> 0 <= tsum l.
Proof.
  induction 1 as [|x l Hx _ IH]; [simpl; lra|]. rewrite tsum_cons. lra.
Qed.

(** The overlap of two masks is at most each mask. *)
Lemma overlap_bounds (a b : list R) :
  List.length a = List.length b -> unit_valued a -> unit_valued b ->
  0 <= tsum (products a b) /\ tsum (products a b) <= tsum a
  /\ tsum (products a b) <= tsum b.
Proof.
  intros Hlen Ha. revert b Hlen.
  induction Ha as [|x a Hx _ IH]; intros [|y b] Hlen Hb; try discriminate.
  - simpl. lra.
  - inversion Hb as [|? ? Hy Hb']; subst.
    injection Hlen as Hlen. destruct (IH b Hlen Hb') as (H0 & H1 & H2).
    rewrite products_cons, !tsum_cons. repeat split; nra.
Qed.

(** X16. For two tensors of one size whose elements all lie in [0, 1],
    [dice_score] returns a value in [-1, 0): the overlap is at most each
    mask, and [eps] keeps the denominator positive. *)
Theorem dice_score_range (pred target : tensor) :
  numel pred = numel target ->
  unit_valued (data pred) -> unit_valued (data target) ->
  exists v, dice_score pred target = Ret v /\ -1 <= v < 0.
Proof.
  intros Hn Hp Ht. unfold dice_score, reshape_flat.
  rewrite tmul_same_size by exact Hn. unfold and_then.
  eexists. split; [reflexivity|].
  destruct (overlap_bounds _ _ Hn Hp Ht) as (H0 & H1 & H2).
  set (i := tsum (products (data pred) (data target))) in *.
  set (u := tsum (data pred) + tsum (data target)).
  assert (Hu : 2 * i <= u) by (unfold u; lra).
  assert (Hd : 0 < u + eps) by (unfold eps; lra).
  assert (Hq : 0 < (2 * i + eps) / (u + eps) <= 1).
  { split.
    - apply Rdiv_lt_0_compat; [unfold eps; lra|exact Hd].
    - apply (Rmult_le_reg_r (u + eps)); [exact Hd|].
      unfold Rdiv. rewrite Rmult_assoc, Rinv_l by lra. lra. }
  lra.
Qed.

Lemma dice_score_range_witness :
  exists v, dice_score (mk_tensor [2%nat] [1; 0]) (mk_tensor [2%nat] [0.5; 1]) = Ret v
            /\ -1 <= v < 0.
Proof.
  apply dice_score_range; [reflexivity| |]; repeat constructor; lra.
Defined.

Lemma products_comm (a b : list R) : products a b = products b a.
Proof.
  revert b. induction a as [|x a IH]; intros [|y b]; try reflexivity.
  rewrite !products_cons, IH. f_equal. ring.
Qed.

Lemma map_scale_comm (x : R) (l : list R) :
  map (fun y => x * y) l = map (fun y => y * x) l.
Proof. apply map_ext. intros y. ring. Qed.

Lemma tmul_comm (a b : list R) : tmul a b = tmul b a.
Proof.
  unfold tmul. rewrite (Nat.eqb_sym (List.length b)).
  destruct (List.length a =? List.length b)%nat eqn:E.
  - f_equal. apply products_comm.
  - destruct a as [|x [|x' a]], b as [|y [|y' b]]; simpl in *;
      try discriminate; try reflexivity;
      rewrite ?map_scale_comm; f_equal;
      repeat (apply f_equal2; [ring|]); reflexivity.
Qed.

(** X17. [dice_score] is symmetric: exchanging [pred] and [target] gives
    the same result, value or error, whatever the two sizes. *)
Theorem dice_score_symmetric (pred target : tensor) :
  dice_score pred target = dice_score target pred.
Proof.
  unfold dice_score, reshape_flat. rewrite (tmul_comm (data target)).
  destruct (tmul (data pred) (data target)) as [prod|e]; simpl; [|reflexivity].
  f_equal. f_equal. f_equal. ring.
Qed.

Lemma products_zero_l (n : nat) (b : list R) :
  List.length b = n -> products (repeat 0 n) b = repeat 0 n.
Proof.
  revert b. induction n as [|n IH]; intros [|y b] H; try discriminate; [reflexivity|].
  simpl repeat. rewrite products_cons, IH by (injection H; auto). f_equal. ring.
Qed.

(** X18. Without overlap the score is decided by [eps] alone. Two
    all-zero tensors of one shape (two empty masks) score [-1], the value
    of a perfect match; in general, when the products sum to 0 and the
    two sums are not negative, the score is
    [-(eps / (sum(pred) + sum(target) + eps))], which lies in [-1, 0). *)
Theorem dice_score_without_overlap :
  (forall sh : list nat, dice_score (zeros sh) (zeros sh) = Ret (-1))
  /\
  (forall pred target : tensor,
     numel pred = numel target ->
     tsum (products (data pred) (data target)) = 0 ->
     0 <= tsum (data pred) + tsum (data target) ->
     dice_score pred target
     = Ret (- (0.0001 / (tsum (data pred) + tsum (data target) + 0.0001)))
     /\ -1 <= - (0.0001 / (tsum (data pred) + tsum (data target) + 0.0001)) < 0).
Proof.
  split.
  - intros sh. unfold dice_score, reshape_flat, zeros. simpl data.
    set (n := fold_right Nat.mul 1%nat sh).
    rewrite tmul_same_size by reflexivity. unfold and_then.
    rewrite products_zero_l by apply repeat_length.
    rewrite !tsum_repeat. replace (INR n * 0) with 0 by ring.
    f_equal. unfold eps. lra.
  - intros pred target Hn Hz Hpos. unfold dice_score, reshape_flat.
    rewrite tmul_same_size by exact Hn. unfold and_then. rewrite Hz.
    split; [f_equal; unfold eps; f_equal; f_equal; ring|].
    set (u := tsum (data pred) + tsum (data target)) in *.
    assert (Hq : 0 < 0.0001 / (u + 0.0001) <= 1).
    { split.
      - apply Rdiv_lt_0_compat; lra.
      - apply (Rmult_le_reg_r (u + 0.0001)); [lra|].
        unfold Rdiv. rewrite Rmult_assoc, Rinv_l by lra. lra. }
    lra.
Qed.

Lemma dice_score_without_overlap_witness :
  dice_score (mk_tensor [2%nat] [1; 0]) (mk_tensor [2%nat] [0; 1])
  = Ret (- (0.0001 / (tsum [1; 0] + tsum [0; 1] + 0.0001))).
Proof.
  apply (proj2 dice_score_without_overlap
           (mk_tensor [2%nat] [1; 0]) (mk_tensor [2%nat] [0; 1]));
    [reflexivity|unfold products, tsum; simpl; lra|unfold tsum; simpl; lra].
Defined.

End MoreDice.

(** ** More on the confusion loss *)

Section MoreConfusionLoss.

Local Open Scope R_scope.

Lemma forward_two_class (T : Type) (target : T) (p : R) :
  0 < p < 1 ->
  confusion_loss.forward (two_class_row p) target = - ln (p * (1 - p)) / 2.
Proof.
  intros Hp. unfold confusion_loss.forward, two_class_row, tsum. simpl.
  rewrite ln_mult by lra. field.
Qed.

Lemma ln_quarter : ln (/ 4) = - (2 * ln 2).
Proof.
  replace (/ 4) with (/ (2 * 2)) by (f_equal; ring).
  rewrite ln_Rinv by lra. rewrite ln_mult by lra. ring.
Qed.

(** X19. For a sample of two classes with probabilities [p] and [1 - p],
    [0 < p < 1], the confusion loss is at least [ln 2], and it is [ln 2]
    only at the uniform [p = 1/2]. *)
Theorem two_class_loss_least_at_uniform (T : Type) (target : T) (p : R) :
  0 < p < 1 ->
  ln 2 <= confusion_loss.forward (two_class_row p) target
  /\ (confusion_loss.forward (two_class_row p) target = ln 2 <-> p = 1 / 2).
Proof.
  intros Hp. rewrite forward_two_class by exact Hp.
  assert (Hprod : 0 < p * (1 - p)) by nra.
  assert (Hsq : 0 <= (p - 1 / 2) * (p - 1 / 2)) by apply Rle_0_sqr.
  assert (Hle : p * (1 - p) <= / 4) by lra.
  assert (Hln : ln (p * (1 - p)) <= - (2 * ln 2)).
  { rewrite <- ln_quarter. destruct Hle as [Hlt|Heq].
    - left. apply ln_increasing; assumption.
    - right. rewrite Heq. reflexivity. }
  split; [lra|]. split.
  - intros Heq. assert (E : ln (p * (1 - p)) = ln (/ 4)) by (rewrite ln_quarter; lra).
    apply ln_inv in E; [|exact Hprod|lra].
    assert (Hz : (p - 1 / 2) * (p - 1 / 2) = 0) by lra.
    apply Rmult_integral in Hz. lra.
  - intros ->. replace (1 / 2 * (1 - 1 / 2)) with (/ 4) by field.
    rewrite ln_quarter. field.
Qed.

Lemma two_class_loss_least_at_uniform_witness :
  ln 2 <= confusion_loss.forward (two_class_row 0.2) tt.
Proof. apply (two_class_loss_least_at_uniform unit tt 0.2). lra. Defined.

Lemma tsum_map_repeat (f : R -> R) (x : R) (n : nat) :
  tsum (map f (repeat x n)) = INR n * f x.
Proof.
  induction n as [|n IH]; [simpl; ring|].
  rewrite S_INR. simpl repeat. simpl map. unfold tsum in *. simpl. rewrite IH. ring.
Qed.

(** X20. On one sample that gives each of [n >= 1] classes the
    probability [1/n], the confusion loss is [ln n]. *)
Theorem uniform_loss_is_log_classes (T : Type) (target : T) (n : nat) :
  (0 < n)%nat ->
  confusion_loss.forward (uniform_row n) target = ln (INR n).
Proof.
  intros Hn. assert (Hpos : 0 < INR n) by (apply lt_0_INR; exact Hn).
  unfold confusion_loss.forward, uniform_row. simpl rows. simpl ncols.
  cbn [map]. rewrite tsum_map_repeat, ln_Rinv by exact Hpos.
  unfold tsum. simpl. field. lra.
Qed.

Lemma uniform_loss_is_log_classes_witness :
  confusion_loss.forward (uniform_row 3) tt = ln (INR 3).
Proof. apply uniform_loss_is_log_classes. lia. Defined.

Lemma tsum_app (a b : list R) : tsum (a ++ b) = tsum a + tsum b.
Proof.
  induction a as [|x a IH]; [simpl; ring|].
  simpl app. unfold tsum in *. simpl. rewrite IH. ring.
Qed.

(** X21. The confusion loss is a sum over the samples, not a mean: the
    loss of a batch is the loss of its first rows plus the loss of the
    others, and the loss of a batch with no sample is 0. *)
Theorem loss_adds_over_samples (T : Type) (target : T) (c : nat)
    (rows1 rows2 : list (list R)) :
  confusion_loss.forward (mk_matrix c (rows1 ++ rows2)) target
  = confusion_loss.forward (mk_matrix c rows1) target
    + confusion_loss.forward (mk_matrix c rows2) target
  /\ confusion_loss.forward (mk_matrix c []) target = 0.
Proof.
  unfold confusion_loss.forward. simpl rows. simpl ncols. split.
  - rewrite !map_app, tsum_app. ring.
  - simpl. ring.
Qed.

End MoreConfusionLoss.

(** ** More on the validation loop *)

Local Open Scope Z_scope.

Section MoreValidation.

Import validation.

Context {B : Backend}.
Variable model : tensor -> outcome tensor.
Variable metric_fns : list metric_fn.
Variable epoch : Z.
Variable out_channels : nat.
Variable experiment_name : string.
Variable one_hot : bool.

Local Open Scope R_scope.

Lemma loop_app (pre post : list batch) (l : locals) :
  loop model metric_fns out_channels one_hot (pre ++ post) l
  = and_then (loop model metric_fns out_channels one_hot pre l)
             (loop model metric_fns out_channels one_hot post).
Proof.
  revert l. induction pre as [|b pre IH]; intros l; [reflexivity|].
  simpl. destruct (body model metric_fns out_channels one_hot b l) as [l1|e];
    simpl; [apply IH|reflexivity].
Qed.

Lemma failed_loop_saves_nothing (loader : list batch) (e : exn) (tr : trace) :
  loop model metric_fns out_channels one_hot loader (mk_locals 0 0 0 []) = Raise e ->
  validation model metric_fns epoch out_channels experiment_name one_hot loader tr
  = (Raise e, tr).
Proof.
  intros H. unfold validation. unfold bind at 1. unfold lift at 1. rewrite H.
  reflexivity.
Qed.

(** X22. A validation that fails saves and logs nothing. When the
    batches before [b] are processed and the forward pass of [b] raises
    (the model, the one-hot encoding, a slice or the dice score), the call
    raises that exception with the trace untouched: every [np.save] and
    every [add_scalars] comes after the batch loop. *)
Theorem failing_batch_saves_nothing (pre post : list batch) (b : batch)
    (l : locals) (e : exn) (tr : trace) :
  loop model metric_fns out_channels one_hot pre (mk_locals 0 0 0 []) = Ret l ->
  forward_pass model out_channels one_hot b = Raise e ->
  validation model metric_fns epoch out_channels experiment_name one_hot
    (pre ++ b :: post) tr
  = (Raise e, tr).
Proof.
  intros Hpre Hb. apply failed_loop_saves_nothing.
  rewrite loop_app, Hpre. simpl. unfold body. rewrite Hb. reflexivity.
Qed.

Lemma summary_loop_trace (items : list (string * list R)) (d : list (string * R))
    (tr : trace) :
  exists d',
    summary_loop experiment_name items d tr
    = (Ret d', tr ++ map (metric_save experiment_name) items).
Proof.
  revert d tr. induction items as [|[key val] rest IH]; intros d tr.
  - exists d. simpl. rewrite app_nil_r. reflexivity.
  - cbn [summary_loop]. unfold bind, emit, modify. cbn [fst snd].
    match goal with |- context [summary_loop _ rest ?d1 ?tr1] =>
      destruct (IH d1 tr1) as [d' Hd'] end.
    exists d'. rewrite Hd'. cbn [map]. rewrite <- app_assoc. reflexivity.
Qed.

(** X23. When the batch loop over at least one batch completes, the call
    returns a value [v] and has, in this order, saved the values of each
    metric of [result_dict] under [key + "_" + experiment_name], saved one
    summary mapping under ["metrics_" + experiment_name + ".npy"], logged
    [{"loss": v}] under ["losses"] and logged the same mapping under
    ["metrics"]: the loss it logs is the loss it returns. *)
Theorem validation_logs_what_it_returns (b : batch) (rest : list batch)
    (l : locals) (tr : trace) :
  loop model metric_fns out_channels one_hot (b :: rest) (mk_locals 0 0 0 []) = Ret l ->
  exists (v : R) (metrics_dict : list (string * R)),
    validation model metric_fns epoch out_channels experiment_name one_hot
      (b :: rest) tr
    = (Ret v,
       tr ++ map (metric_save experiment_name) (result_dict l)
          ++ [NpSaveDict ("metrics_" ++ experiment_name ++ ".npy")%string metrics_dict;
              AddScalars "losses" [("loss"%string, v)] epoch;
              AddScalars "metrics" metrics_dict epoch]).
Proof.
  intros Hl.
  destruct (loop_returns model metric_fns out_channels one_hot _ _ _ Hl)
    as (losses & _ & _ & Hn).
  simpl num_steps in Hn.
  destruct (summary_loop_trace (result_dict l) [] tr) as [d Hd].
  exists (val_loss l / IZR (num_steps l)), d.
  unfold validation. unfold bind at 1. unfold lift at 1. rewrite Hl.
  unfold bind at 1. unfold lift at 1. unfold py_div.
  destruct (Req_dec_T (IZR (num_steps l)) 0) as [E|_].
  { exfalso. apply eq_IZR_R0 in E. rewrite Hn in E. simpl List.length in E. lia. }
  unfold bind. rewrite Hd. unfold emit, modify, ret. cbn [fst snd].
  rewrite <- !app_assoc. reflexivity.
Qed.

(** X24. In one-hot mode with [out_channels = 0] and a loader that is
    not empty, the call never returns and saves or logs nothing, whatever
    the tensors and the model: it raises at the first batch. The exception
    is the one of the one-hot encoding when that raises, as torch's does
    for zero classes (a [RuntimeError]); the division by [out_channels]
    is then never reached. *)
Theorem one_hot_without_channels_raises (b : batch) (rest : list batch) (tr : trace) :
  one_hot = true -> out_channels = 0%nat ->
  exists e,
    validation model metric_fns epoch out_channels experiment_name one_hot
      (b :: rest) tr
    = (Raise e, tr)
    /\ forall e', one_hot_mask (mask b) 0 = Raise e' -> e = e'.
Proof.
  intros Hoh Hc.
  assert (Hfp : exists e, forward_pass model out_channels one_hot b = Raise e
                          /\ forall e', one_hot_mask (mask b) 0 = Raise e' -> e = e').
  { unfold forward_pass. rewrite Hoh, Hc.
    destruct (one_hot_mask (mask b) 0) as [m|e0]; cbn [and_then].
    - destruct (model (image b)) as [o|e1]; cbn [and_then].
      + exists ZeroDivisionError. split; [|discriminate].
        cbn [seq sum_channels and_then]. unfold py_div. cbn [INR].
        destruct (Req_dec_T 0 0) as [_|n]; [reflexivity|contradiction n; reflexivity].
      + exists e1. split; [reflexivity|discriminate].
    - exists e0. split; [reflexivity|]. intros e' H. injection H as <-. reflexivity. }
  destruct Hfp as (e & Hfp & He). exists e. split; [|exact He].
  apply failed_loop_saves_nothing. cbn [loop]. unfold body. rewrite Hfp. reflexivity.
Qed.

End MoreValidation.

Lemma failing_batch_saves_nothing_witness :
  validation.validation (B:=single_sample_backend) (fun _ => Raise RuntimeError)
    [] 0 1 "exp" false
    ([] ++ validation.mk_batch (ones [1; 1]%nat) (ones [1; 1]%nat) :: []) []
  = (Raise RuntimeError, []).
Proof.
  apply (failing_batch_saves_nothing (B:=single_sample_backend)
           (fun _ => Raise RuntimeError) [] 0 1 "exp" false [] []
           (validation.mk_batch (ones [1; 1]%nat) (ones [1; 1]%nat))
           (validation.mk_locals 0 0 0 []) RuntimeError []); reflexivity.
Defined.

Lemma validation_logs_what_it_returns_witness :
  exists (v : R) (metrics_dict : list (string * R)),
    validation.validation (B:=single_sample_backend) Ret [] 0 1 "exp" false
      [validation.mk_batch (ones [1; 1]%nat) (ones [1; 1]%nat)] []
    = (Ret v,
       [] ++ map (metric_save "exp") []
          ++ [validation.NpSaveDict "metrics_exp.npy" metrics_dict;
              validation.AddScalars "losses" [("loss"%string, v)] 0;
              validation.AddScalars "metrics" metrics_dict 0]).
Proof.
  refine (validation_logs_what_it_returns (B:=single_sample_backend) Ret [] 0 1
            "exp" false
            (validation.mk_batch (ones [1; 1]%nat) (ones [1; 1]%nat)) []
            (validation.mk_locals _ _ _ []) [] _).
  reflexivity.
Defined.

Lemma one_hot_without_channels_raises_witness :
  exists e,
    validation.validation (B:=no_zero_class_backend) Ret [] 0 0 "exp" true
      [validation.mk_batch (ones [1; 1]%nat) (ones [1; 1]%nat)] []
    = (Raise e, [])
    /\ forall e', Raise (A:=tensor) RuntimeError = Raise e' -> e = e'.
Proof.
  apply (one_hot_without_channels_raises (B:=no_zero_class_backend) Ret [] 0 0
           "exp" true (validation.mk_batch (ones [1; 1]%nat) (ones [1; 1]%nat))
           [] []); reflexivity.
Defined.

(** ** The metric values that the validation loop keeps *)

Local Open Scope Z_scope.

Section KeptMetrics.

Import validation.

Context {B : Backend}.
Variable model : tensor -> outcome tensor.
Variable metric_fns : list metric_fn.
Variable out_channels : nat.
Variable one_hot : bool.

Local Open Scope R_scope.

Lemma dict_append_keys (d : list (string * list R)) (key : string) (r : R) (k : string) :
  In k (map fst (dict_append d key r)) -> In k (map fst d) \/ k = key.
Proof.
  induction d as [|[k0 v0] d IH]; simpl.
  - intros [H|[]]; auto.
  - destruct (String.eqb_spec k0 key); simpl; intros [H|H]; auto.
    destruct (IH H); auto.
Qed.

Lemma dict_append_kept (d : list (string * list R)) (metric : metric_fn) (r : R) :
  In metric metric_fns -> r <> 0 -> kept_dict metric_fns d ->
  kept_dict metric_fns (dict_append d ("val_" ++ name metric)%string r).
Proof.
  intros Hin Hr [Hall Hnd]. set (key := ("val_" ++ name metric)%string).
  induction d as [|[k0 v0] d IH]; simpl.
  - split.
    + constructor; [|constructor]. split; [exists metric; auto|].
      split; [discriminate|]. constructor; [exact Hr|constructor].
    + constructor; [intros []|constructor].
  - inversion Hall as [|? ? (Hk & Hne & Hnz) Hall']; subst.
    inversion Hnd as [|? ? Hnotin Hnd']; subst.
    destruct (String.eqb_spec k0 key) as [->|Hneq].
    + split.
      * constructor; [|exact Hall']. split; [exact Hk|]. split.
        -- simpl. destruct v0; discriminate.
        -- simpl. apply Forall_app. split; [exact Hnz|].
           constructor; [exact Hr|constructor].
      * simpl. constructor; assumption.
    + destruct (IH Hall' Hnd') as [Hall1 Hnd1]. split.
      * constructor; [|exact Hall1]. split; [exact Hk|]. split; assumption.
      * simpl. constructor; [|exact Hnd1].
        intros Hin'. apply dict_append_keys in Hin' as [Hin'| ->]; [|congruence].
        apply Hnotin. exact Hin'.
Qed.

Lemma dropped_false (res : pyfloat) :
  dropped res = false -> exists r, res = Fin r /\ r <> 0.
Proof.
  destruct res as [|r]; simpl; [discriminate|].
  destruct (Req_dec_T r 0); [discriminate|]. intros _. exists r. auto.
Qed.

Lemma sample_loop_kept (metric : metric_fn) (samples : list (tensor * tensor))
    (d d' : list (string * list R)) :
  In metric metric_fns ->
  sample_loop out_channels one_hot metric samples d = Ret d' ->
  kept_dict metric_fns d -> kept_dict metric_fns d'.
Proof.
  intros Hin. revert d. induction samples as [|[prediction mask] rest IH]; intros d.
  - simpl. intros H. injection H as <-. auto.
  - cbn [sample_loop].
    destruct (metric_of out_channels one_hot metric prediction mask) as [res|e];
      cbn [and_then]; [|discriminate].
    destruct (dropped res) eqn:Hd; [apply IH|].
    destruct (dropped_false res Hd) as (r & -> & Hr).
    intros H Hk. apply (IH _ H). apply dict_append_kept; assumption.
Qed.

Lemma metric_loop_kept (metrics : list metric_fn) (samples : list (tensor * tensor))
    (d d' : list (string * list R)) :
  incl metrics metric_fns ->
  metric_loop out_channels one_hot metrics samples d = Ret d' ->
  kept_dict metric_fns d -> kept_dict metric_fns d'.
Proof.
  revert d. induction metrics as [|metric rest IH]; intros d Hincl.
  - simpl. intros H. injection H as <-. auto.
  - cbn [metric_loop].
    destruct (sample_loop out_channels one_hot metric samples d) as [d1|e] eqn:Hs;
      cbn [and_then]; [|discriminate].
    intros H Hk. apply (IH d1); [intros x Hx; apply Hincl; right; exact Hx|exact H|].
    apply (sample_loop_kept metric samples d d1); [apply Hincl; left; reflexivity| |];
      assumption.
Qed.

Lemma loop_kept (loader : list batch) (l l' : locals) :
  loop model metric_fns out_channels one_hot loader l = Ret l' ->
  kept_dict metric_fns (result_dict l) -> kept_dict metric_fns (result_dict l').
Proof.
  revert l. induction loader as [|b rest IH]; intros l.
  - simpl. intros H. injection H as <-. auto.
  - cbn [loop]. destruct (body model metric_fns out_channels one_hot b l) as [l1|e] eqn:Hb;
      cbn [and_then]; [|discriminate].
    intros H Hk. apply (IH l1 H). revert Hb. unfold body.
    destruct (forward_pass model out_channels one_hot b) as [[[m o] dl]|e];
      cbn [and_then]; [|discriminate].
    destruct (metric_loop _ _ _ _ _) as [d1|e] eqn:Hm; cbn [and_then]; [|discriminate].
    intros Hret. injection Hret as <-. cbn [result_dict].
    apply (metric_loop_kept _ _ _ _ (incl_refl _) Hm Hk).
Qed.

(** X25. The [result_dict] of a completed batch loop has no key twice,
    each key is ["val_" + name] for one of the metric functions, and each
    list of values is non-empty and holds no zero: a metric value of 0
    (like a NaN) is dropped instead of recorded, and a key only exists
    once a value was kept for it, so the mean and the standard deviation
    are never taken of an empty array. *)
Theorem kept_metric_values (loader : list batch) (l : locals) :
  loop model metric_fns out_channels one_hot loader (mk_locals 0 0 0 []) = Ret l ->
  NoDup (map fst (result_dict l))
  /\ forall key values, In (key, values) (result_dict l) ->
       (exists metric, In metric metric_fns /\ key = ("val_" ++ name metric)%string)
       /\ values <> []
       /\ Forall (fun r => r <> 0) values.
Proof.
  intros H. destruct (loop_kept loader _ _ H) as [Hall Hnd].
  - split; constructor.
  - split; [exact Hnd|]. intros key values Hin.
    rewrite Forall_forall in Hall. apply (Hall (key, values) Hin).
Qed.

End KeptMetrics.

Lemma kept_metric_values_witness :
  NoDup (map fst [("val_one"%string, [1%R])])
  /\ forall key values, In (key, values) [("val_one"%string, [1%R])] ->
       (exists metric, In metric [constant_metric]
                       /\ key = ("val_" ++ validation.name metric)%string)
       /\ values <> []
       /\ Forall (fun r => r <> 0%R) values.
Proof.
  refine (kept_metric_values (B:=single_sample_backend) Ret [constant_metric] 1 false
            [validation.mk_batch (ones [1; 1]%nat) (ones [1; 1]%nat)]
            (validation.mk_locals _ _ _ [("val_one"%string, [1%R])]) _).
  unfold validation.loop, validation.body, validation.forward_pass, and_then; simpl.
  unfold validation.dropped. destruct (Req_dec_T 1 0) as [E|_]; [exfalso; lra|].
  reflexivity.
Defined.

(** ** When patch extraction returns *)

Local Open Scope nat_scope.

Section AssignRowsReturns.

Context {P : Type}.

(** A slice assignment that returns keeps the length, and got as many
    items as the slice has, or a single one. *)
Lemma assign_rows_returns (dst dst' src : list P) (i m : nat) :
  i * m + m <= List.length dst ->
  patches.assign_rows dst (i * m) (m * (i + 1)) src = Ret dst' ->
  List.length dst' = List.length dst
  /\ (List.length src = m \/ List.length src = 1).
Proof.
  intros Hd. unfold patches.assign_rows.
  replace (Nat.min (i * m) (List.length dst)) with (i * m) by lia.
  replace (Nat.max (i * m) (Nat.min (m * (i + 1)) (List.length dst)))
    with (i * m + m) by lia.
  replace (i * m + m - i * m) with m by lia.
  destruct (Nat.eqb_spec (List.length src) m) as [E|E].
  - intros H. injection H as <-. split; [|left; exact E].
    rewrite !length_app, length_firstn, length_skipn. lia.
  - destruct src as [|x [|y src]]; try discriminate.
    intros H. injection H as <-. split; [|right; reflexivity].
    rewrite !length_app, length_firstn, length_skipn, repeat_length. lia.
Qed.

End AssignRowsReturns.

Section PatchDataReturns.

Variable draw : Z -> nat -> nat -> nat -> nat -> nat * nat.
Context {Img Msk F32 U8 : Type}.
Variable to_float32 : Img -> F32.
Variable to_uint8 : Msk -> U8.
Variable img_finite : Img -> bool.
Variable msk_finite : Msk -> bool.
Variable junk32 : F32.
Variable junk8 : U8.

Lemma all_corners_length (n_h n_w start : nat) :
  List.length (flat_map (fun i => map (fun j => (i, j)) (seq 0 n_w)) (seq start n_h))
  = n_h * n_w.
Proof.
  revert start. induction n_h as [|n_h IH]; intros start; [reflexivity|].
  simpl seq. simpl flat_map. rewrite length_app, length_map, length_seq, IH. lia.
Qed.

(** What [check_array] accepted has no NaN or infinite element. *)
Lemma check_array_finite {E : Type} (finite : E -> bool) (a : list (list E)) :
  patches.check_array finite a = true -> all_finite finite a.
Proof.
  unfold patches.check_array. intros H. apply andb_prop in H as [_ H].
  apply Forall_forall. intros r Hr. apply Forall_forall. intros x Hx.
  rewrite forallb_forall in H. specialize (H r Hr).
  rewrite forallb_forall in H. exact (H x Hx).
Qed.

(** An extraction that returns had a patch that fits, and yields every
    corner when [max_patches] is 0, else [max_patches] corners or all of
    them if they are fewer. *)
Lemma extract_patches_2d_returns {E : Type} (finite : E -> bool) (a : list (list E))
    (p_h p_w m : nat) (rv : Z) (ps : list (list (list E))) :
  patches.extract_patches_2d draw finite a (p_h, p_w) m rv = Ret ps ->
  p_h <= patches.height a /\ p_w <= patches.width a
  /\ List.length ps
     = (if m =? 0 then positions a p_h p_w else Nat.min m (positions a p_h p_w)).
Proof.
  unfold patches.extract_patches_2d, positions.
  destruct (Nat.ltb_spec (patches.height a) p_h); [discriminate|].
  destruct (Nat.ltb_spec (patches.width a) p_w); [discriminate|].
  destruct (negb (patches.check_array finite a)); [discriminate|].
  destruct ((p_h =? 0) || (p_w =? 0)); [discriminate|].
  intros H'. injection H' as <-. split; [assumption|]. split; [assumption|].
  rewrite length_map. unfold patches.compute_n_patches.
  destruct (Nat.eqb_spec m 0).
  - apply all_corners_length.
  - rewrite length_map, length_seq.
    destruct (Nat.ltb_spec m ((patches.height a - p_h + 1) * (patches.width a - p_w + 1)));
      lia.
Qed.

(** An extraction that returns had a patch with at least one row and one
    column, and an array without NaN or infinite element. *)
Lemma extract_patches_2d_checked {E : Type} (finite : E -> bool) (a : list (list E))
    (p_h p_w m : nat) (rv : Z) (ps : list (list (list E))) :
  patches.extract_patches_2d draw finite a (p_h, p_w) m rv = Ret ps ->
  (1 <= p_h /\ 1 <= p_w) /\ all_finite finite a.
Proof.
  unfold patches.extract_patches_2d.
  destruct (patches.height a <? p_h); [discriminate|].
  destruct (patches.width a <? p_w); [discriminate|].
  destruct (patches.check_array finite a) eqn:Hcheck; cbn [negb]; [|discriminate].
  destruct (Nat.eqb_spec p_h 0); cbn [orb]; [discriminate|].
  destruct (Nat.eqb_spec p_w 0); [discriminate|].
  intros _. split; [lia|]. apply check_array_finite, Hcheck.
Qed.

Lemma extractable_of_length {E : Type} (a : list (list E)) (p_h p_w m n : nat) :
  p_h <= patches.height a -> p_w <= patches.width a ->
  n = (if m =? 0 then positions a p_h p_w else Nat.min m (positions a p_h p_w)) ->
  n = m \/ n = 1 ->
  extractable a p_h p_w m.
Proof.
  intros Hh Hw Hn Hcase. split; [exact Hh|]. split; [exact Hw|].
  assert (Hpos : 1 <= positions a p_h p_w) by (unfold positions; nia).
  destruct (Nat.eqb_spec m 0); lia.
Qed.

Lemma body_returns_extractable (dataset : list (patches.sample Img Msk))
    (p_h p_w m : nat) (rv : Z) (i : nat) (s : patches.sample Img Msk)
    (A A' : list (list (list F32))) (M M' : list (list (list U8))) :
  nth_error dataset i = Some s ->
  i * m + m <= List.length A -> i * m + m <= List.length M ->
  patches.body draw to_float32 to_uint8 img_finite msk_finite dataset (p_h, p_w) m rv
    i (A, M)
  = Ret (A', M') ->
  List.length A' = List.length A /\ List.length M' = List.length M
  /\ (extractable (patches.input s) p_h p_w m
      /\ extractable (patches.gt s) p_h p_w m)
  /\ ((1 <= p_h /\ 1 <= p_w)
      /\ all_finite img_finite (patches.input s)
      /\ all_finite msk_finite (patches.gt s)).
Proof.
  intros Hs HA HM. unfold patches.body. rewrite Hs.
  destruct (patches.extract_patches_2d draw img_finite (patches.input s) (p_h, p_w) m rv)
    as [ips|e] eqn:Hi; cbn [and_then]; [|discriminate].
  destruct (patches.extract_patches_2d draw msk_finite (patches.gt s) (p_h, p_w) m rv)
    as [mps|e] eqn:Hg; cbn [and_then]; [|discriminate].
  destruct (patches.assign_rows A _ _ _) as [A1|e] eqn:HA1; cbn [and_then];
    [|discriminate].
  destruct (patches.assign_rows M _ _ _) as [M1|e] eqn:HM1; cbn [and_then];
    [|discriminate].
  intros H. injection H as <- <-.
  destruct (assign_rows_returns _ _ _ _ _ HA HA1) as [HlA HcA].
  destruct (assign_rows_returns _ _ _ _ _ HM HM1) as [HlM HcM].
  rewrite length_map in HcA, HcM.
  destruct (extract_patches_2d_returns _ _ _ _ _ _ _ Hi) as (Hh & Hw & Hn).
  destruct (extract_patches_2d_returns _ _ _ _ _ _ _ Hg) as (Hh' & Hw' & Hn').
  destruct (extract_patches_2d_checked _ _ _ _ _ _ _ Hi) as (Hsides & Hfi).
  destruct (extract_patches_2d_checked _ _ _ _ _ _ _ Hg) as (_ & Hfg).
  repeat split; try assumption; try apply Hsides.
  - apply (extractable_of_length _ _ _ _ (List.length ips)); assumption.
  - apply (extractable_of_length _ _ _ _ (List.length mps)); assumption.
Qed.

Lemma loop_returns_extractable (dataset : list (patches.sample Img Msk))
    (p_h p_w m : nat) (rv : Z) (cnt i0 : nat)
    (A A' : list (list (list F32))) (M M' : list (list (list U8))) :
  i0 + cnt = List.length dataset ->
  List.length A = List.length dataset * m ->
  List.length M = List.length dataset * m ->
  patches.loop draw to_float32 to_uint8 img_finite msk_finite dataset (p_h, p_w) m rv
    (seq i0 cnt) (A, M)
  = Ret (A', M') ->
  forall i s, i0 <= i -> nth_error dataset i = Some s ->
    (extractable (patches.input s) p_h p_w m /\ extractable (patches.gt s) p_h p_w m)
    /\ ((1 <= p_h /\ 1 <= p_w)
        /\ all_finite img_finite (patches.input s)
        /\ all_finite msk_finite (patches.gt s)).
Proof.
  revert i0 A M. induction cnt as [|cnt IH]; intros i0 A M Hn HA HM Hloop i s Hi Hs.
  - assert (i < List.length dataset) by (apply nth_error_Some; congruence). lia.
  - destruct (nth_error dataset i0) as [s0|] eqn:Hs0;
      [|apply nth_error_None in Hs0; lia].
    assert (Hblock : i0 * m + m <= List.length dataset * m) by nia.
    change (seq i0 (S cnt)) with (i0 :: seq (S i0) cnt) in Hloop.
    cbn [patches.loop] in Hloop.
    destruct (patches.body draw to_float32 to_uint8 img_finite msk_finite dataset
                (p_h, p_w) m rv i0 (A, M))
      as [[A1 M1]|e] eqn:Hb; cbn [and_then] in Hloop; [|discriminate].
    destruct (body_returns_extractable dataset p_h p_w m rv i0 s0 A A1 M M1 Hs0)
      as (HlA & HlM & He & Hv); [lia|lia|exact Hb|].
    destruct (Nat.eq_dec i i0) as [->|Hne].
    + rewrite Hs0 in Hs. injection Hs as <-. auto.
    + refine (IH (S i0) A1 M1 _ _ _ Hloop i s _ Hs); lia.
Qed.

(** X26. [patch_data] returns only on a dataset it can cut: for every
    sample, the patch is no larger than the image nor than the mask, and
    [max_patches] is at least 1 and at most the number of patch corners of
    each, unless there is a single corner, where the one patch is copied
    into every row.  In every other case scikit-learn or the slice
    assignment raises, so nothing is returned. *)
Theorem patch_data_returns_only_if_extractable
    (dataset : list (patches.sample Img Msk)) (p_h p_w m : nat) (rv : Z)
    (images_patches : list (list (list F32))) (masks_patches : list (list (list U8))) :
  patches.patch_data draw to_float32 to_uint8 img_finite msk_finite junk32 junk8
    dataset (p_h, p_w) m rv
  = Ret (images_patches, masks_patches) ->
  Forall (fun s => extractable (patches.input s) p_h p_w m
                   /\ extractable (patches.gt s) p_h p_w m) dataset.
Proof.
  unfold patches.patch_data. cbn [fst snd]. intros H.
  apply Forall_forall. intros s Hin. apply In_nth_error in Hin as [i Hi].
  apply (loop_returns_extractable dataset p_h p_w m rv (List.length dataset) 0
           _ _ _ _ eq_refl (repeat_length _ _) (repeat_length _ _) H i s);
    [lia|exact Hi].
Qed.

(** X28. [patch_data] returns only if no pixel of an image or a mask is
    NaN or infinite and, unless the dataset is empty, the patch has at
    least one row and one column: scikit-learn's [check_array] refuses
    the first with a [ValueError], and the reshape of the patches raises
    one for a patch with an empty side. *)
Theorem patch_data_returns_only_if_valid
    (dataset : list (patches.sample Img Msk)) (p_h p_w m : nat) (rv : Z)
    (images_patches : list (list (list F32))) (masks_patches : list (list (list U8))) :
  patches.patch_data draw to_float32 to_uint8 img_finite msk_finite junk32 junk8
    dataset (p_h, p_w) m rv
  = Ret (images_patches, masks_patches) ->
  (dataset <> [] -> 1 <= p_h /\ 1 <= p_w)
  /\ Forall (fun s => all_finite img_finite (patches.input s)
                      /\ all_finite msk_finite (patches.gt s)) dataset.
Proof.
  unfold patches.patch_data. cbn [fst snd]. intros H.
  pose proof (loop_returns_extractable dataset p_h p_w m rv (List.length dataset) 0
                _ _ _ _ eq_refl (repeat_length _ _) (repeat_length _ _) H) as Hall.
  split.
  - destruct dataset as [|s rest]; [congruence|]. intros _.
    apply (Hall 0 s); [lia|reflexivity].
  - apply Forall_forall. intros s Hin. apply In_nth_error in Hin as [i Hi].
    apply (Hall i s); [lia|exact Hi].
Qed.

End PatchDataReturns.

Lemma patch_data_returns_only_if_extractable_witness :
  Forall (fun s => extractable (patches.input s) 1 1 2
                   /\ extractable (patches.gt s) 1 1 2)
         [patches.mk_sample [[1; 2]; [3; 4]] [[0; 1]; [1; 0]]].
Proof.
  refine (patch_data_returns_only_if_extractable draw_origin
            (fun x : nat => x) (fun x : nat => x) (fun _ => true) (fun _ => true) 0 0
            [patches.mk_sample [[1; 2]; [3; 4]] [[0; 1]; [1; 0]]] 1 1 2 5%Z _ _ _).
  reflexivity.
Defined.

(** A pixel value is finite unless it is the marker 255 standing for NaN;
    one 2x2 sample without it, two patches of one pixel. *)
Lemma patch_data_returns_only_if_valid_witness :
  ([patches.mk_sample [[1; 2]; [3; 4]] [[0; 1]; [1; 0]]] <> [] -> 1 <= 1 /\ 1 <= 1)
  /\ Forall (fun s => all_finite (fun x => negb (x =? 255)) (patches.input s)
                      /\ all_finite (fun x => negb (x =? 255)) (patches.gt s))
            [patches.mk_sample [[1; 2]; [3; 4]] [[0; 1]; [1; 0]]].
Proof.
  refine (patch_data_returns_only_if_valid draw_origin
            (fun x : nat => x) (fun x : nat => x)
            (fun x => negb (x =? 255)) (fun x => negb (x =? 255)) 0 0
            [patches.mk_sample [[1; 2]; [3; 4]] [[0; 1]; [1; 0]]] 1 1 2 5%Z _ _ _).
  reflexivity.
Defined.

(** ** The file ids of get_dataset *)

Section FileIds.

Import Ascii.
Import get_dataset.

Local Open Scope string_scope.

Lemma before_dot_has_no_dot (name : string) : ~ In "."%char (chars (before_dot name)).
Proof.
  induction name as [|c rest IH]; simpl; [tauto|].
  destruct (Ascii.eqb_spec c "."%char) as [->|Hne]; simpl; [tauto|].
  intros [H|H]; [exact (Hne H)|exact (IH H)].
Qed.

Lemma before_dot_prefix (name : string) :
  String.prefix (before_dot name) name = true.
Proof.
  induction name as [|c rest IH]; simpl; [reflexivity|].
  destruct (Ascii.eqb_spec c "."%char) as [->|Hne]; simpl; [reflexivity|].
  destruct (Ascii.ascii_dec c c) as [_|n]; [exact IH|contradiction n; reflexivity].
Qed.

(** What follows the first dot is dropped. *)
Lemma before_dot_append (id rest : string) :
  ~ In "."%char (chars id) -> before_dot (id ++ String "."%char rest) = id.
Proof.
  induction id as [|c id IH]; simpl; intros H.
  - reflexivity.
  - destruct (Ascii.eqb_spec c "."%char) as [->|Hne]; [exfalso; apply H; left; reflexivity|].
    f_equal. apply IH. intros Hin. apply H. right. exact Hin.
Qed.

(** X27. The file ids handed to [CC359].  No id contains a dot; every id
    is the part before the first dot of a listed name that does not start
    with a dot, hence a prefix of it, and it is not empty unless that name
    is.  Every listed name not starting with a dot gives its id, and a
    file [id.ext] is found under [id] whatever the extension. *)
Theorem file_ids_are_dotless_stems (listing : list string) :
  (forall id, In id (file_ids listing) ->
     ~ In "."%char (chars id)
     /\ exists name, In name listing /\ startswith_dot name = false
                     /\ id = before_dot name
                     /\ String.prefix id name = true
                     /\ (name <> EmptyString -> id <> EmptyString))
  /\ (forall name, In name listing -> startswith_dot name = false ->
        In (before_dot name) (file_ids listing))
  /\ (forall id ext, ~ In "."%char (chars id) -> id <> EmptyString ->
        In (id ++ String "."%char ext) listing -> In id (file_ids listing)).
Proof.
  unfold file_ids. split; [|split].
  - intros id Hin. apply in_map_iff in Hin as (name & <- & Hname).
    apply filter_In in Hname as [Hname Hdot]. apply negb_true_iff in Hdot.
    split; [apply before_dot_has_no_dot|].
    exists name. repeat split; try assumption; [apply before_dot_prefix|].
    destruct name as [|c rest]; [congruence|]. simpl in *. rewrite Hdot. discriminate.
  - intros name Hin Hdot. apply in_map, filter_In. split; [exact Hin|].
    rewrite Hdot. reflexivity.
  - intros id ext Hdotless Hne Hin.
    rewrite <- (before_dot_append id ext Hdotless).
    apply in_map, filter_In. split; [exact Hin|].
    destruct id as [|c id]; [congruence|]. simpl.
    destruct (Ascii.eqb_spec c "."%char) as [->|_]; [|reflexivity].
    exfalso. apply Hdotless. left. reflexivity.
Qed.

End FileIds.

Lemma file_ids_are_dotless_stems_witness :
  In "CC0001"%string
     (get_dataset.file_ids ["CC0001.nii.gz"; ".DS_Store"; "CC0002.nii"]%string).
Proof.
  apply (proj2 (proj2 (file_ids_are_dotless_stems
                         ["CC0001.nii.gz"; ".DS_Store"; "CC0002.nii"]%string))
           "CC0001"%string "nii.gz"%string).
  - simpl. intros H. repeat (destruct H as [H|H]; [discriminate H|]). exact H.
  - discriminate.
  - left. reflexivity.
Defined.
